(** * MetroDN_Botchat: the agent orchestration engine of [src/server/agent.ts]

    A shallow embedding of the retry policy ([retryWithBackoff]), the
    inventory search tool ([itemLookupTool]), its argument schema, the
    workflow graph ([shouldContinue], [workflow]) and the entry point
    [callAgent], followed by the properties proved of them.

    Conventions.
    - A computation that may throw returns an [outcome].  Where the program
      only handles [Error] objects the thrown value is a [JsError] and the
      outcome a [result]; the search tool, whose collaborators may reject
      with any value, works with thrown values of type [JsValue].
    - An asynchronous collaborator (the language model, the collection, the
      vector store) is an oracle: a function from what it is asked to what
      it answers.  Every theorem quantifies over these oracles.
    - Integers of the program (attempt counters, delays in milliseconds,
      document counts) are [Z]; a JavaScript number that validation may
      receive from outside is a rational [Q]. *)

From Stdlib Require Import ZArith QArith List String Ascii Bool Lia.
From Stdlib Require Import DecimalString DecimalZ.
Import ListNotations.

Set Warnings "-register-all,-notation-for-abbreviation".

Local Open Scope string_scope.
Local Open Scope list_scope.
Local Open Scope Z_scope.

(** ** Exceptions *)

(** An [Error] object, as the clients and drivers the program talks to
    throw them.  The fields the program reads are [error.status] (set by
    HTTP clients, absent on a plain [Error]) and [error.message]. *)
Record JsError : Type := mkError
  { err_name : string;
    status : option Z;
    message : string }.

(** [new Error(msg)] *)
Definition Error (msg : string) : JsError :=
  {| err_name := "Error"; status := None; message := msg |}.

(** The outcome of a computation that may throw a value of type [E]. *)
Inductive outcome (E A : Type) : Type :=
| Return (a : A)
| Throw (e : E).
Arguments Return {E A} a.
Arguments Throw {E A} e.

(** The outcome of a computation that throws [Error] objects. *)
Notation result := (outcome JsError).

(** [error.status === 429] *)
Definition status_is (e : JsError) (code : Z) : bool :=
  match status e with
  | Some s => s =? code
  | None => false
  end.

(** ** Retry policy: [retryWithBackoff] (agent.ts, lines 20-35) *)

Module Retry.

(** What an execution of [retryWithBackoff] does besides computing its
    result, in order: invocations of the wrapped operation and sleeps. *)
Inductive event : Type :=
| Attempt                 (* await fn() *)
| Sleep (ms : Z).         (* await new Promise(resolve => setTimeout(resolve, delay)) *)

Definition event_eqb (a b : event) : bool :=
  match a, b with
  | Attempt, Attempt => true
  | Sleep x, Sleep y => x =? y
  | _, _ => false
  end.

(** [Math.min(1000 * Math.pow(2, attempt), 30000)] *)
Definition backoff_delay (attempt : Z) : Z :=
  Z.min (1000 * 2 ^ attempt) 30000.

Section Loop.

Context {T : Type}.

(** The wrapped operation [fn] is impure: its [i]-th invocation (counting
    from 0) has outcome [fn i].  [maxRetries] is an integer, of any sign. *)
Variable fn : nat -> result T.
Variable maxRetries : Z.

(** The [for] loop.  [attempt] is the loop variable, [calls] the number of
    invocations of [fn] made so far, [tr] the events so far.  [fuel] bounds
    the number of iterations of the model; [None] means the fuel ran out
    (see [retryWithBackoff_total]). *)
Fixpoint retry_loop (fuel : nat) (attempt : Z) (calls : nat) (tr : list event)
  : option (result T * list event) :=
  match fuel with
  | O => None
  | S fuel' =>
    if attempt <=? maxRetries then
      match fn calls with
      | Return v => Some (Return v, tr ++ [Attempt])
      | Throw error =>
        if status_is error 429 && (attempt <? maxRetries) then
          let delay := backoff_delay attempt in
          retry_loop fuel' (attempt + 1) (S calls) (tr ++ [Attempt; Sleep delay])
        else Some (Throw error, tr ++ [Attempt])
      end
    else Some (Throw (Error "Max retries exceeded"), tr)
  end.

Definition retryWithBackoff : option (result T * list event) :=
  retry_loop (S (Z.to_nat maxRetries)) 1 0%nat [].

End Loop.

(** [maxRetries = 3] is the default of the parameter. *)
Definition default_maxRetries : Z := 3.

(** Number of invocations of the operation in a trace, and the sleeps. *)
Definition attempts (tr : list event) : nat :=
  List.length (filter (event_eqb Attempt) tr).

Fixpoint sleeps (tr : list event) : list Z :=
  match tr with
  | [] => []
  | Attempt :: tr' => sleeps tr'
  | Sleep d :: tr' => d :: sleeps tr'
  end.

(** The trace of [k] failed attempts numbered [a], [a+1], ..., each followed
    by its sleep. *)
Fixpoint failed_rounds (k : nat) (a : Z) : list event :=
  match k with
  | O => []
  | S k' => Attempt :: Sleep (backoff_delay a) :: failed_rounds k' (a + 1)
  end.

(** The delays "1000ms, 2000ms, 4000ms, ... capped at 30000ms" of [k]
    consecutive retries, as a list. *)
Definition listed_delays (k : nat) : list Z :=
  map (fun i => Z.min (1000 * 2 ^ Z.of_nat i) 30000) (seq 0 k).

(** A rate-limit fault: a thrown object whose [status] is 429. *)
Definition rate_limited {T} (r : result T) : Prop :=
  exists e, r = Throw e /\ status_is e 429 = true.

End Retry.

(** ** Values exchanged with the outside *)

(** A JavaScript value as the argument schema sees it.  Numbers are the
    finite ones, as rationals. *)
Inductive JsValue : Type :=
| JsUndefined
| JsNull
| JsBoolean (b : bool)
| JsNumber (q : Q)
| JsString (s : string)
| JsObject (fields : list (string * JsValue)).

(** [obj[key]]: the first binding of [key], [undefined] when there is none. *)
Fixpoint js_get (key : string) (fields : list (string * JsValue)) : JsValue :=
  match fields with
  | [] => JsUndefined
  | (k, v) :: rest => if String.eqb k key then v else js_get key rest
  end.

(** An [Error] object as a value. *)
Definition error_object (e : JsError) : JsValue :=
  JsObject
    ([("name", JsString (err_name e)); ("message", JsString (message e))]
       ++ match status e with
          | Some s => [("status", JsNumber (inject_Z s))]
          | None => []
          end).


(** The [TypeError] of a property read on [null] or [undefined]. *)
Definition property_type_error (v : JsValue) (key : string) : JsError :=
  {| err_name := "TypeError";
     status := None;
     message :=
       String.append "Cannot read properties of "
         (String.append (match v with JsNull => "null" | _ => "undefined" end)
            (String.append " (reading '" (String.append key "')"))) |}.

(** [v.key]: a property read throws on [null] and [undefined]; an object
    gives the property, [undefined] when it has none; a boolean, a number
    or a string has no property of its own to give. *)
Definition js_property (v : JsValue) (key : string) : outcome JsValue JsValue :=
  match v with
  | JsUndefined | JsNull => Throw (error_object (property_type_error v key))
  | JsObject fields => Return (js_get key fields)
  | _ => Return JsUndefined
  end.

(** A stored value of a document of the [items] collection. *)
Inductive Bson : Type :=
| BString (s : string)
| BArray (elems : list Bson)
| BNumber (q : Q)
| BNull.

Definition Document : Type := list (string * Bson).

Fixpoint doc_get (key : string) (d : Document) : option Bson :=
  match d with
  | [] => None
  | (k, v) :: rest => if String.eqb k key then Some v else doc_get key rest
  end.

(** ** Inventory search tool: [itemLookupTool] (agent.ts, lines 51-118) *)

Module Search.

(** The query document the tool passes to [collection.find]:
    [{ $or: [ { field: { $regex: pattern, $options: options } }, ... ] }]. *)
Record RegexCond : Type := mkRegex
  { cond_field : string;
    cond_regex : string;      (* $regex *)
    cond_options : string }.  (* $options *)

Record Filter : Type := mkFilter { f_or : list RegexCond }.   (* $or *)

(** A vector-search hit: the document and its similarity score. *)
Definition ScoredDocument : Type := (Document * Q)%type.

(** The collaborators of the tool, as oracles.  [similaritySearchWithScore]
    covers the construction of the vector store and of the embedding client,
    the embedding of the query and the vector search, any of which may
    throw; [find] is [collection.find(filter).limit(n).toArray()].  A
    collaborator may reject with any value: the [catch] clause of the tool
    types what it catches as [any]. *)
Record Collaborators : Type := mkCollab
  { countDocuments : outcome JsValue Z;
    similaritySearchWithScore :
      string -> Q -> outcome JsValue (list ScoredDocument);
    find : Filter -> Q -> outcome JsValue (list Document) }.

(** The calls made to the collaborators, in order. *)
Inductive call : Type :=
| CountDocuments
| SimilaritySearchWithScore (query : string) (k : Q)
| Find (filter : Filter) (limit : Q).

(** Computations of the tool: they log their calls and may throw. *)
Definition M (A : Type) : Type := list call -> outcome JsValue A * list call.

Definition ret {A} (a : A) : M A := fun log => (Return a, log).

Definition bind {A B} (m : M A) (k : A -> M B) : M B :=
  fun log =>
    match m log with
    | (Return a, log') => k a log'
    | (Throw e, log') => (Throw e, log')
    end.

(** [try { body } catch (error) { handler }] *)
Definition try_catch {A} (body : M A) (handler : JsValue -> M A) : M A :=
  fun log =>
    match body log with
    | (Return a, log') => (Return a, log')
    | (Throw e, log') => handler e log'
    end.

(** [await] of a collaborator's answer, logged as call [c]. *)
Definition await {A} (c : call) (answer : outcome JsValue A) : M A :=
  fun log => (answer, log ++ [c]).

(** [v.key] *)
Definition property (v : JsValue) (key : string) : M JsValue :=
  fun log => (js_property v key, log).

Notation "x <- m ;; k" := (bind m (fun x => k))
  (at level 61, m at next level, right associativity).

(** The three shapes of object the tool serialises with [JSON.stringify]. *)
Inductive Results : Type :=
| VectorResults (hits : list ScoredDocument)
| TextResults (docs : list Document).


Inductive Payload : Type :=
| EmptyPayload (error message : string) (count : Z)
    (* { error, message, count } *)
| ResultsPayload (results : Results) (searchType query : string) (count : Z)
    (* { results, searchType, query, count } *)
| ErrorPayload (error : string) (details : JsValue) (query : string).
    (* { error, details, query }; [JSON.stringify] leaves [details] out when
       it is [undefined] *)

(** The [$or] filter of lines 77-84. *)
Definition text_filter (query : string) : Filter :=
  {| f_or :=
       [ mkRegex "item_name" query "i";
         mkRegex "item_description" query "i";
         mkRegex "categories" query "i";
         mkRegex "embedding_text" query "i" ] |}.

(** The destructuring default [{ query, n = 10 }]. *)
Definition n_or_default (n : option Q) : Q :=
  match n with
  | Some q => q
  | None => 10%Q
  end.

Section Tool.

Variable collection : Collaborators.

(** The body of the [try] block (lines 54-99); the calls to [console] are
    left out. *)
Definition search_steps (query : string) (n : Q) : M Payload :=
  totalCount <- await CountDocuments (countDocuments collection) ;;
  if totalCount =? 0 then
    ret (EmptyPayload "No items found in inventory"
                      "The inventory database appears to be empty" 0)
  else
    result <- await (SimilaritySearchWithScore query n)
                    (similaritySearchWithScore collection query n) ;;
    if (List.length result =? 0)%nat then
      textResults <- await (Find (text_filter query) n)
                           (find collection (text_filter query) n) ;;
      ret (ResultsPayload (TextResults textResults) "text" query
                          (Z.of_nat (List.length textResults)))
    else
      ret (ResultsPayload (VectorResults result) "vector" query
                          (Z.of_nat (List.length result))).

(** The [catch] clause (lines 101-108): it reads [error.message] of the
    caught value, whatever that value is. *)
Definition caught (query : string) (error : JsValue) : M Payload :=
  details <- property error "message" ;;
  ret (ErrorPayload "Failed to search inventory" details query).

(** The tool's function (lines 52-109): the [try] block and its [catch]. *)
Definition itemLookupTool (query : string) (n_arg : option Q) : M Payload :=
  let n := n_or_default n_arg in
  try_catch (search_steps query n) (caught query).

(** One invocation of the tool, from an empty log. *)
Definition run_tool (query : string) (n_arg : option Q)
  : outcome JsValue Payload * list call :=
  itemLookupTool query n_arg [].

End Tool.

End Search.

(** ** The collection behind [find]: regular-expression queries

    [collection.find] is MongoDB's; what it does with the tool's filter is
    fixed by the query language, not by this repository.  The model below
    covers the part of it that the properties of the lexical fallback need:
    patterns made of ordinary characters, [.] and backslash-escaped
    punctuation, with the option ["i"] or none, and a positive integer
    limit.  Outside that fragment the model is silent ([None]). *)

Module Mongo.

Inductive atom : Type :=
| Lit (c : ascii)     (* this character *)
| AnyChar.            (* . : any character but a line feed *)

Definition in_range (lo hi : nat) (c : ascii) : bool :=
  let n := nat_of_ascii c in (lo <=? n)%nat && (n <=? hi)%nat.

Definition is_alnum (c : ascii) : bool :=
  in_range 48 57 c || in_range 65 90 c || in_range 97 122 c.

(** The characters with a meaning of their own in a pattern:
    [\ ^ $ . | ? * + ( ) [ ] { }]. *)
Definition is_meta (c : ascii) : bool :=
  existsb (Ascii.eqb c)
    ["\"; "^"; "$"; "."; "|"; "?"; "*"; "+"; "("; ")"; "["; "]"; "{"; "}"]%char.

(** Reading a pattern of the fragment. *)
Fixpoint compile (pattern : string) : option (list atom) :=
  match pattern with
  | EmptyString => Some []
  | String c rest =>
    if Ascii.eqb c "\" then
      match rest with
      | EmptyString => None
      | String c' rest' =>
        if is_alnum c' then None
        else option_map (cons (Lit c')) (compile rest')
      end
    else if Ascii.eqb c "." then option_map (cons AnyChar) (compile rest)
    else if is_meta c then None
    else option_map (cons (Lit c)) (compile rest)
  end.

(** Case folding of the letters A-Z. *)
Definition to_lower (c : ascii) : ascii :=
  if in_range 65 90 c then ascii_of_nat (nat_of_ascii c + 32) else c.

Definition line_feed : ascii := ascii_of_nat 10.

Definition atom_matches (caseless : bool) (a : atom) (c : ascii) : bool :=
  match a with
  | Lit l => if caseless then Ascii.eqb (to_lower l) (to_lower c) else Ascii.eqb l c
  | AnyChar => negb (Ascii.eqb c line_feed)
  end.

(** The pattern matches a prefix of the subject. *)
Fixpoint match_here (caseless : bool) (p : list atom) (s : string) : bool :=
  match p with
  | [] => true
  | a :: p' =>
    match s with
    | EmptyString => false
    | String c s' => atom_matches caseless a c && match_here caseless p' s'
    end
  end.

(** The pattern matches somewhere in the subject (patterns are not
    anchored). *)
Fixpoint regex_search (caseless : bool) (p : list atom) (s : string) : bool :=
  match_here caseless p s
  || match s with
     | EmptyString => false
     | String _ s' => regex_search caseless p s'
     end.

(** [$options]: ["i"] or nothing. *)
Definition read_options (options : string) : option bool :=
  if String.eqb options "i" then Some true
  else if String.eqb options "" then Some false
  else None.

(** A [$regex] condition on a stored value: a string is searched, an array
    matches when one of its string elements does, anything else does not. *)
Definition regex_value (caseless : bool) (p : list atom) (v : Bson) : bool :=
  match v with
  | BString s => regex_search caseless p s
  | BArray elems =>
    existsb (fun e => match e with
                      | BString s => regex_search caseless p s
                      | _ => false
                      end) elems
  | _ => false
  end.

Definition eval_cond (c : Search.RegexCond) (d : Document) : option bool :=
  match compile (Search.cond_regex c), read_options (Search.cond_options c) with
  | Some p, Some caseless =>
    Some match doc_get (Search.cond_field c) d with
         | Some v => regex_value caseless p v
         | None => false
         end
  | _, _ => None
  end.

(** [$or]: some condition holds. *)
Fixpoint eval_or (conds : list Search.RegexCond) (d : Document) : option bool :=
  match conds with
  | [] => Some false
  | c :: rest =>
    match eval_cond c d, eval_or rest d with
    | Some b, Some b' => Some (b || b')
    | _, _ => None
    end
  end.

Fixpoint select (conds : list Search.RegexCond) (items : list Document)
  : option (list Document) :=
  match items with
  | [] => Some []
  | d :: rest =>
    match eval_or conds d, select conds rest with
    | Some b, Some ds => Some (if b then d :: ds else ds)
    | _, _ => None
    end
  end.

(** [limit(n)] for a positive integer [n]. *)
Definition positive_integer (n : Q) : option nat :=
  let r := Qred n in
  if (Zpos (Qden r) =? 1) && (0 <? Qnum r) then Some (Z.to_nat (Qnum r))
  else None.

(** [find(filter).limit(n).toArray()] over the documents [items] in their
    stored order; [None] outside the fragment. *)
Definition find (items : list Document) (filter : Search.Filter) (n : Q)
  : option (list Document) :=
  match select (Search.f_or filter) items, positive_integer n with
  | Some ds, Some k => Some (firstn k ds)
  | _, _ => None
  end.

(** The collaborators are backed by a collection holding [items]: they
    count its documents and answer [find] as above wherever the model
    speaks. *)
Definition backed_by (c : Search.Collaborators) (items : list Document) : Prop :=
  Search.countDocuments c = Return (Z.of_nat (List.length items))
  /\ forall filter n ds,
       find items filter n = Some ds -> Search.find c filter n = Return ds.

(** A collection of the model with a given vector search.  For a query
    outside the fragment this particular collection throws. *)
Definition collection_of (items : list Document)
    (vector : string -> Q -> outcome JsValue (list Search.ScoredDocument))
  : Search.Collaborators :=
  {| Search.countDocuments := Return (Z.of_nat (List.length items));
     Search.similaritySearchWithScore := vector;
     Search.find := fun filter n =>
       match find items filter n with
       | Some ds => Return ds
       | None =>
         Throw (error_object (Error "query outside the modelled fragment"))
       end |}.

(** *** The cursor's limit, for every [n]

    What [limit(n)] makes of the matching documents is the driver's and the
    server's.  Below it is a parameter [limit]: from [n] and the matching
    documents, in their stored order, to what [toArray()] yields or throws.
    Two facts about it are used: a positive integer [n] keeps the first [n]
    documents, and [limit(0)] sets no limit. *)

Definition CursorLimit : Type :=
  Q -> list Document -> outcome JsValue (list Document).

Definition cursor_laws (limit : CursorLimit) : Prop :=
  (forall n k ds,
      positive_integer n = Some k -> limit n ds = Return (firstn k ds))
  /\ (forall n ds, Qeq n 0 -> limit n ds = Return ds).

(** [find(filter).limit(n).toArray()] with that limit; [None] when a
    pattern of the filter is outside the fragment. *)
Definition find_with (limit : CursorLimit) (items : list Document)
    (filter : Search.Filter) (n : Q)
  : option (outcome JsValue (list Document)) :=
  match select (Search.f_or filter) items with
  | Some ds => Some (limit n ds)
  | None => None
  end.

(** The collaborators are backed by a collection holding [items] whose
    cursors limit as [limit] does. *)
Definition served_with (limit : CursorLimit) (c : Search.Collaborators)
    (items : list Document) : Prop :=
  Search.countDocuments c = Return (Z.of_nat (List.length items))
  /\ forall filter n r,
       find_with limit items filter n = Some r -> Search.find c filter n = r.

(** A cursor limit with the two facts; on any other [n] this particular one
    throws. *)
Definition example_limit : CursorLimit :=
  fun n ds =>
    if Qeq_bool n 0 then Return ds
    else match positive_integer n with
         | Some k => Return (firstn k ds)
         | None => Throw (error_object (Error "limit outside the examples"))
         end.

(** A collection of the model with a given cursor limit and vector
    search. *)
Definition collection_with (limit : CursorLimit) (items : list Document)
    (vector : string -> Q -> outcome JsValue (list Search.ScoredDocument))
  : Search.Collaborators :=
  {| Search.countDocuments := Return (Z.of_nat (List.length items));
     Search.similaritySearchWithScore := vector;
     Search.find := fun filter n =>
       match find_with limit items filter n with
       | Some r => r
       | None =>
         Throw (error_object (Error "query outside the modelled fragment"))
       end |}.

End Mongo.

(** ** Literal, case-insensitive substring search

    What "case-insensitive substring matching of the query string across
    the name, description, category and embedding-text fields, limited to n
    results" says, written without regular expressions. *)

Module Literal.

Fixpoint prefix_ci (needle hay : string) : bool :=
  match needle with
  | EmptyString => true
  | String a needle' =>
    match hay with
    | EmptyString => false
    | String b hay' =>
      Ascii.eqb (Mongo.to_lower a) (Mongo.to_lower b) && prefix_ci needle' hay'
    end
  end.

Fixpoint substring_ci (needle hay : string) : bool :=
  prefix_ci needle hay
  || match hay with
     | EmptyString => false
     | String _ hay' => substring_ci needle hay'
     end.

Definition value_contains (needle : string) (v : Bson) : bool :=
  match v with
  | BString s => substring_ci needle s
  | BArray elems =>
    existsb (fun e => match e with
                      | BString s => substring_ci needle s
                      | _ => false
                      end) elems
  | _ => false
  end.

Definition searched_fields : list string :=
  ["item_name"; "item_description"; "categories"; "embedding_text"].

Definition doc_contains (needle : string) (d : Document) : bool :=
  existsb (fun f => match doc_get f d with
                    | Some v => value_contains needle v
                    | None => false
                    end) searched_fields.

Definition lexical_search (items : list Document) (query : string) (n : nat)
  : list Document :=
  firstn n (filter (doc_contains query) items).

(** No character of the query is a metacharacter of patterns. *)
Fixpoint plain (query : string) : bool :=
  match query with
  | EmptyString => true
  | String c rest => negb (Mongo.is_meta c) && plain rest
  end.

End Literal.

(** ** Argument schema of the tool (agent.ts, lines 110-117)

    The combinators of the validation library that the schema uses, with the
    meaning the library gives them: [z.string()] and [z.number()] accept the
    values of that type, [.optional()] also accepts [undefined],
    [.default(d)] replaces [undefined] by [d] before validating, and
    [z.object(shape)] validates each key of the shape and keeps the keys
    whose value is defined.  [.describe(...)] has no effect on validation. *)

Module Schema.

Inductive ZodType : Type :=
| z_string
| z_number
| z_optional (inner : ZodType)
| z_default (inner : ZodType) (value : JsValue)
| z_object (shape : list (string * ZodType)).

(** [schema.safeParse(v)]: the validated value, [None] when [v] is
    rejected. *)
Fixpoint parse (t : ZodType) (v : JsValue) : option JsValue :=
  match t with
  | z_string => match v with JsString _ => Some v | _ => None end
  | z_number => match v with JsNumber _ => Some v | _ => None end
  | z_optional inner =>
    match v with
    | JsUndefined => Some JsUndefined
    | _ => parse inner v
    end
  | z_default inner value =>
    match v with
    | JsUndefined => parse inner value
    | _ => parse inner v
    end
  | z_object shape =>
    match v with
    | JsObject fields =>
      option_map JsObject
        ((fix parse_shape (sh : list (string * ZodType))
            : option (list (string * JsValue)) :=
            match sh with
            | [] => Some []
            | (key, t') :: sh' =>
              match parse t' (js_get key fields), parse_shape sh' with
              | Some JsUndefined, Some rest => Some rest
              | Some x, Some rest => Some ((key, x) :: rest)
              | _, _ => None
              end
            end) shape)
    | _ => None
    end
  end.

(** [z.object({ query: z.string(), n: z.number().optional().default(10) })] *)
Definition itemLookup_schema : ZodType :=
  z_object
    [ ("query", z_string);
      ("n", z_default (z_optional z_number) (JsNumber 10%Q)) ].

(** The arguments of one tool call: [{ query }] or [{ query, n }]. *)
Definition args (query : string) (n : option Q) : JsValue :=
  JsObject
    (("query", JsString query)
       :: match n with
          | Some q => [("n", JsNumber q)]
          | None => []
          end).

(** The value of [n] the tool's function works with after validation. *)
Definition validated_n (input : JsValue) : option Q :=
  match parse itemLookup_schema input with
  | Some (JsObject fields) =>
    match js_get "n" fields with
    | JsNumber q => Some q
    | JsUndefined => Some (Search.n_or_default None)
    | _ => None
    end
  | _ => None
  end.

(** "An integer strictly greater than 0". *)
Definition is_positive_integer (q : Q) : Prop :=
  exists k : Z, 0 < k /\ Qeq q (inject_Z k).

End Schema.

(** ** The workflow (agent.ts, lines 44-48 and 120-188) *)

Module Graph.

Record ToolCall : Type := mkToolCall
  { tc_id : string;
    tc_name : string;
    tc_args : JsValue }.

(** The message classes.  Only an [AIMessage] has a [tool_calls] field, and
    the field is optional. *)
Inductive BaseMessage : Type :=
| HumanMessage (content : string)
| AIMessage (content : string) (tool_calls : option (list ToolCall))
| ToolMessage (content : string) (tool_call_id : string).

Definition content (m : BaseMessage) : string :=
  match m with
  | HumanMessage c | AIMessage c _ | ToolMessage c _ => c
  end.

(** [m.tool_calls], [None] for [undefined]. *)
Definition tool_calls (m : BaseMessage) : option (list ToolCall) :=
  match m with
  | AIMessage _ tcs => tcs
  | _ => None
  end.

(** [GraphState]: one channel, [messages], whose reducer concatenates. *)
Record State : Type := mkState { messages : list BaseMessage }.

Definition reducer (x y : list BaseMessage) : list BaseMessage := x ++ y.

Definition apply_update (st : State) (update : list BaseMessage) : State :=
  {| messages := reducer (messages st) update |}.

(** [messages[messages.length - 1]] *)
Definition last_message (st : State) : option BaseMessage :=
  nth_error (messages st) (List.length (messages st) - 1)%nat.

Definition TypeError (msg : string) : JsError :=
  {| err_name := "TypeError"; status := None; message := msg |}.

(** [shouldContinue] (lines 131-138).  Reading a property of [undefined]
    throws a [TypeError]; [tool_calls?.length] is falsy when [tool_calls] is
    [undefined] or empty. *)
Definition shouldContinue (state : State) : result string :=
  match last_message state with
  | None => Throw (TypeError "Cannot read properties of undefined")
  | Some lastMessage =>
    match tool_calls lastMessage with
    | Some calls =>
      if (List.length calls =? 0)%nat then Return "__end__" else Return "tools"
    | None => Return "__end__"
    end
  end.

(** The nodes of the graph, with the two built-in ones. *)
Inductive Node : Type := START | agent | tools | END.

Definition node_of_name (name : string) : option Node :=
  if String.eqb name "__start__" then Some START
  else if String.eqb name "agent" then Some agent
  else if String.eqb name "tools" then Some tools
  else if String.eqb name "__end__" then Some END
  else None.

Inductive Edge : Type :=
| Direct (target : Node)                           (* addEdge *)
| Conditional (route : State -> result string).    (* addConditionalEdges *)

(** [workflow] (lines 170-175): the edges leaving each node. *)
Definition workflow (n : Node) : option Edge :=
  match n with
  | START => Some (Direct agent)
  | agent => Some (Conditional shouldContinue)
  | tools => Some (Direct agent)
  | END => None
  end.

(** The transition function: the node that follows [n] in state [st]. *)
Definition next_node (n : Node) (st : State) : result Node :=
  match workflow n with
  | Some (Direct target) => Return target
  | Some (Conditional route) =>
    match route st with
    | Return name =>
      match node_of_name name with
      | Some target => Return target
      | None => Throw (Error "unknown node")
      end
    | Throw e => Throw e
    end
  | None => Return END
  end.

(** The reply of the language model: always an AI message. *)
Record ModelReply : Type := mkReply
  { reply_content : string;
    reply_tool_calls : option (list ToolCall) }.

Definition reply_message (r : ModelReply) : BaseMessage :=
  AIMessage (reply_content r) (reply_tool_calls r).

Definition recursionLimit : nat := 15.

Inductive Outcome : Type :=
| Completed (final : State)
| NodeFailed (e : JsError)
| RecursionLimitExceeded.

Section Run.

(** The language model is an oracle: the answer to its [i]-th invocation
    (over the whole run) on the prompt built from [msgs] is [model i msgs].
    The prebuilt tool node is an oracle too: from the messages so far to the
    tool messages it appends, or a fault. *)
Variable model : nat -> list BaseMessage -> result ModelReply.
Variable toolNode : list BaseMessage -> result (list BaseMessage).

(** [callModel] (lines 140-167), [invoked] being the number of model
    invocations made before it: the update to the state, and the events of
    its retry loop.  The prompt is the fixed system instruction followed by
    [state.messages]. *)
Definition callModel (state : State) (invoked : nat)
  : option (result (list BaseMessage) * list Retry.event) :=
  Retry.retryWithBackoff
    (fun i => match model (invoked + i)%nat (messages state) with
              | Return r => Return [reply_message r]
              | Throw e => Throw e
              end)
    Retry.default_maxRetries.

(** Executing a node: its update and the new count of model invocations. *)
Definition execute (n : Node) (state : State) (invoked : nat)
  : option (result (list BaseMessage) * nat) :=
  match n with
  | agent =>
    match callModel state invoked with
    | Some (r, tr) => Some (r, (invoked + Retry.attempts tr)%nat)
    | None => None
    end
  | tools => Some (toolNode (messages state), invoked)
  | START | END => Some (Return [], invoked)
  end.

(** Modelled from the spec: the loop of the orchestration library that
    drives the compiled graph is not part of the repository.  Section 4.1:
    "A step counter increments on every node execution; exceeding a fixed
    ceiling (15) aborts with a fatal RecursionLimitExceeded error."  The
    ceiling is the [recursionLimit: 15] of line 185.  [steps] counts the
    executions of [agent] and [tools] so far; the result carries the final
    count.  [None]: the fuel of the model ran out. *)
Fixpoint run (fuel : nat) (cur : Node) (state : State) (steps invoked : nat)
  : option (Outcome * nat) :=
  match fuel with
  | O => None
  | S fuel' =>
    match cur with
    | END => Some (Completed state, steps)
    | START =>
      match next_node START state with
      | Return nxt => run fuel' nxt state steps invoked
      | Throw e => Some (NodeFailed e, steps)
      end
    | _ =>
      if (recursionLimit <=? steps)%nat then Some (RecursionLimitExceeded, steps)
      else
        match execute cur state invoked with
        | None => None
        | Some (Throw e, _) => Some (NodeFailed e, S steps)
        | Some (Return update, invoked') =>
          let state' := apply_update state update in
          match next_node cur state' with
          | Return nxt => run fuel' nxt state' (S steps) invoked'
          | Throw e => Some (NodeFailed e, S steps)
          end
        end
    end
  end.

(** Modelled from the spec: [app.invoke(input, { recursionLimit: 15,
    configurable: { thread_id } })] (lines 180-188).  Section 4.1: "On
    entry, the orchestrator loads the Thread's prior ConversationState from
    the Checkpoint Store (empty sequence if the thread is new), appends the
    new human Message, and runs the state machine to termination."
    [checkpoint] is the loaded state. *)
Definition invoke (fuel : nat) (checkpoint : State) (input : list BaseMessage)
  : option (Outcome * nat) :=
  run fuel START (apply_update checkpoint input) 0 0.

End Run.

(** The [catch] of [callAgent] (lines 195-204): the error re-thrown for a
    caught [error]. *)
Definition rethrown (error : JsError) : JsError :=
  if status_is error 429 then
    Error "Service temporarily unavailable due to rate limits. Please try again in a minute."
  else if status_is error 401 then
    Error "Authentication failed. Please check your API configuration."
  else Error (String.append "Agent failed: " (message error)).

(** The error the orchestration library throws at the step ceiling; its
    message is the library's. *)
Definition GraphRecursionError (msg : string) : JsError :=
  {| err_name := "GraphRecursionError"; status := None; message := msg |}.

(** [callAgent] (lines 38-205): the reply, or the re-thrown error, with the
    number of node executions of the turn. *)
Definition callAgent (fuel : nat) (recursion_msg : string)
    (model : nat -> list BaseMessage -> result ModelReply)
    (toolNode : list BaseMessage -> result (list BaseMessage))
    (checkpoint : State) (query : string)
  : option (result string * nat) :=
  match invoke model toolNode fuel checkpoint [HumanMessage query] with
  | None => None
  | Some (Completed finalState, steps) =>
    match last_message finalState with
    | Some m => Some (Return (content m), steps)
    | None =>
      Some (Throw (rethrown (TypeError "Cannot read properties of undefined")),
            steps)
    end
  | Some (NodeFailed e, steps) => Some (Throw (rethrown e), steps)
  | Some (RecursionLimitExceeded, steps) =>
    Some (Throw (rethrown (GraphRecursionError recursion_msg)), steps)
  end.

End Graph.

(** ** Concrete inputs used by the examples below *)

Module Examples.

(** The fault of an HTTP client on status 429. *)
Definition too_many_requests : JsError :=
  {| err_name := "Error"; status := Some 429; message := "Too Many Requests" |}.

(** The fault of an HTTP client on status 401. *)
Definition unauthorized : JsError :=
  {| err_name := "Error"; status := Some 401; message := "Unauthorized" |}.

(** An operation rate-limited on its first [k] invocations, then returning
    [v]. *)
Definition limited_then (k : nat) (v : Z) : nat -> result Z :=
  fun i => if (i <? k)%nat then Throw too_many_requests else Return v.

(** An operation that is always rate-limited. *)
Definition always_limited : nat -> result Z :=
  fun _ => Throw too_many_requests.

(** An operation whose first invocation fails for another reason. *)
Definition denied : nat -> result Z :=
  fun _ => Throw unauthorized.

(** A one-document inventory. *)
Definition sofa : Document :=
  [ ("item_name", BString "abc sofa");
    ("item_description", BString "A red Sofa");
    ("categories", BArray [BString "Living Room"; BString "Seating"]);
    ("embedding_text", BString "abc sofa, red, seating") ].

Definition no_hits
  : string -> Q -> outcome JsValue (list Search.ScoredDocument) :=
  fun _ _ => Return [].

Definition one_hit
  : string -> Q -> outcome JsValue (list Search.ScoredDocument) :=
  fun _ _ => Return [(sofa, 9 # 10)].

Definition inventory : Search.Collaborators :=
  Mongo.collection_of [sofa] no_hits.

(** A model that answers at once, without tool calls. *)
Definition direct_model : nat -> list Graph.BaseMessage -> result Graph.ModelReply :=
  fun _ _ => Return (Graph.mkReply "Hello" None).

Definition lookup_call : Graph.ToolCall :=
  Graph.mkToolCall "call_1" "item_lookup" (Schema.args "red sofa" None).

(** A model that asks for the tool on every turn. *)
Definition looping_model : nat -> list Graph.BaseMessage -> result Graph.ModelReply :=
  fun _ _ => Return (Graph.mkReply "" (Some [lookup_call])).

Definition echo_tools : list Graph.BaseMessage -> result (list Graph.BaseMessage) :=
  fun _ => Return [Graph.ToolMessage "{}" "call_1"].

End Examples.

(** ** The HTTP endpoints (server entry file, lines 48-80)

    An endpoint is a function from the request to the response it sends;
    [callAgent], which it awaits, is passed as the function from the query
    and the thread identifier to its outcome. *)

Module Server.

Record Response : Type := mkResponse
  { res_status : Z;
    res_body : JsValue }.

(** [res.json(body)]: status 200 unless [res.status] was called. *)
Definition json (body : JsValue) : Response :=
  {| res_status := 200; res_body := body |}.

(** [res.status(code).json(body)] *)
Definition status_json (code : Z) (body : JsValue) : Response :=
  {| res_status := code; res_body := body |}.

(** [Date.now().toString()]: the decimal notation of the clock's integer. *)
Definition thread_of_time (now : Z) : string :=
  NilEmpty.string_of_int (Z.to_int now).

Definition internal_error : Response :=
  status_json 500 (JsObject [("error", JsString "Internal server error")]).

Section Endpoints.

Variable callAgent : string -> string -> result string.

(** [app.post("/chat", ...)] (lines 54-66), [now] being the value of
    [Date.now()] and [message] that of [req.body.message]. *)
Definition post_chat (now : Z) (message : string) : Response :=
  let initialMessage := message in
  let threadId := thread_of_time now in
  match callAgent initialMessage threadId with
  | Return response =>
    json (JsObject [("threadId", JsString threadId);
                    ("response", JsString response)])
  | Throw _ => internal_error
  end.

(** [app.post("/chat/:threadId", ...)] (lines 69-80). *)
Definition post_chat_thread (threadId message : string) : Response :=
  match callAgent message threadId with
  | Return response => json (JsObject [("response", JsString response)])
  | Throw _ => internal_error
  end.

End Endpoints.

(** The [callAgent] of this development as the endpoints await it: [load]
    is the state the checkpointer holds for a thread.  The run is given the
    fuel that always suffices, so the last branch is never taken. *)
Definition agent_of (recursion_msg : string)
    (model : nat -> list Graph.BaseMessage -> result Graph.ModelReply)
    (toolNode : list Graph.BaseMessage -> result (list Graph.BaseMessage))
    (load : string -> Graph.State)
  : string -> string -> result string :=
  fun query thread_id =>
    match Graph.callAgent (Graph.recursionLimit + 2) recursion_msg
                          model toolNode (load thread_id) query with
    | Some (r, _) => r
    | None => Throw (Error "unreachable")
    end.

End Server.

(** ** Measures of a retry trace *)

(** What the [catch] clause of the search tool makes of a caught value: the
    error payload, or the [TypeError] of reading [message] on [null] or
    [undefined]. *)
Definition catch_outcome (query : string) (error : JsValue)
  : outcome JsValue Search.Payload :=
  match js_property error "message" with
  | Return details =>
    Return (Search.ErrorPayload "Failed to search inventory" details query)
  | Throw type_error => Throw type_error
  end.


(** A trace in which the invocations are separated by exactly one sleep
    each, with nothing before the first invocation or after the last. *)
Fixpoint well_spaced (tr : list Retry.event) : bool :=
  match tr with
  | [] => true
  | Retry.Attempt :: rest =>
    match rest with
    | [] => true
    | Retry.Sleep _ :: rest' =>
      match rest' with
      | Retry.Attempt :: _ => well_spaced rest'
      | _ => false
      end
    | Retry.Attempt :: _ => false
    end
  | Retry.Sleep _ :: _ => false
  end.

(** Time slept over a whole trace, in milliseconds. *)
Definition total_sleep (tr : list Retry.event) : Z :=
  fold_right Z.add 0 (Retry.sleeps tr).

(** The operation that [callModel] hands to [retryWithBackoff]: its [i]-th
    invocation is the model's invocation number [invoked + i]. *)
Definition model_call
    (model : nat -> list Graph.BaseMessage -> result Graph.ModelReply)
    (state : Graph.State) (invoked : nat) (i : nat)
  : result (list Graph.BaseMessage) :=
  match model (invoked + i)%nat (Graph.messages state) with
  | Return r => Return [Graph.reply_message r]
  | Throw e => Throw e
  end.

(** The texts of the errors [callAgent] re-throws. *)
Definition rate_limit_text : string :=
  "Service temporarily unavailable due to rate limits. Please try again in a minute.".

Definition auth_text : string :=
  "Authentication failed. Please check your API configuration.".

(** ** Behaviours of the model used by the later examples *)

Module Scenarios.

(** A model whose credentials are refused. *)
Definition unauthorized_model
  : nat -> list Graph.BaseMessage -> result Graph.ModelReply :=
  fun _ _ => Throw Examples.unauthorized.

(** A model that is always rate-limited. *)
Definition limited_model
  : nat -> list Graph.BaseMessage -> result Graph.ModelReply :=
  fun _ _ => Throw Examples.too_many_requests.

(** A model that asks for the tool once, then answers. *)
Definition tool_then_answer
  : nat -> list Graph.BaseMessage -> result Graph.ModelReply :=
  fun i _ =>
    match i with
    | O => Return (Graph.mkReply "" (Some [Examples.lookup_call]))
    | _ => Return (Graph.mkReply "We have one red sofa." None)
    end.

Definition new_thread : Graph.State := {| Graph.messages := [] |}.


(** The one-document inventory behind cursors with the example limit. *)
Definition limited_inventory : Search.Collaborators :=
  Mongo.collection_with Mongo.example_limit [Examples.sofa] Examples.no_hits.

End Scenarios.

(** * Properties *)

(** ** Retry policy *)

Section RetryFacts.

Import Retry.

Context {T : Type}.
Variable fn : nat -> result T.
Variable maxRetries : Z.

(** Enough fuel for the iterations that remain: the loop returns. *)
Lemma retry_loop_total (fuel : nat) :
  forall attempt calls tr,
    (Z.to_nat (maxRetries - attempt + 1) < fuel)%nat ->
    exists r, retry_loop fn maxRetries fuel attempt calls tr = Some r.
Proof.
  induction fuel as [|fuel IH]; intros attempt calls tr Hfuel; [lia|].
  simpl. destruct (attempt <=? maxRetries) eqn:Hle; [|eauto].
  destruct (fn calls) as [v|e]; [eauto|].
  destruct (status_is e 429 && (attempt <? maxRetries)); [|eauto].
  apply IH. apply Z.leb_le in Hle. lia.
Qed.

Lemma retryWithBackoff_total :
  exists r, retryWithBackoff fn maxRetries = Some r.
Proof.
  unfold retryWithBackoff. apply retry_loop_total. lia.
Qed.

(** [k] rate-limited attempts in a row, none of them the last one allowed,
    take the loop through [k] rounds of attempt and sleep. *)
Lemma retry_loop_rounds (k : nat) :
  forall fuel attempt calls tr,
    (k <= fuel)%nat ->
    attempt + Z.of_nat k <= maxRetries ->
    (forall i, (i < k)%nat -> rate_limited (fn (calls + i))) ->
    retry_loop fn maxRetries fuel attempt calls tr
    = retry_loop fn maxRetries (fuel - k) (attempt + Z.of_nat k)
                 (calls + k) (tr ++ failed_rounds k attempt).
Proof.
  induction k as [|k IH]; intros fuel attempt calls tr Hfuel Hmax Hfail.
  - simpl. rewrite Nat.sub_0_r, Z.add_0_r, Nat.add_0_r, app_nil_r. reflexivity.
  - destruct fuel as [|fuel]; [lia|].
    destruct (Hfail 0%nat ltac:(lia)) as (e & He & H429).
    rewrite Nat.add_0_r in He.
    cbn [retry_loop]. rewrite He, H429.
    replace (attempt <=? maxRetries) with true by (symmetry; apply Z.leb_le; lia).
    replace (attempt <? maxRetries) with true by (symmetry; apply Z.ltb_lt; lia).
    cbn [andb]. rewrite IH.
    + cbn [failed_rounds Nat.sub]. rewrite <- app_assoc. cbn [app].
      f_equal; try lia.
    + lia.
    + lia.
    + intros i Hi. replace (S calls + i)%nat with (calls + S i)%nat by lia.
      apply Hfail. lia.
Qed.

(** The attempt after [k] rate-limited ones succeeds. *)
Lemma retry_then_success (k : nat) (v : T) :
  Z.of_nat k < maxRetries ->
  (forall i, (i < k)%nat -> rate_limited (fn i)) ->
  fn k = Return v ->
  retryWithBackoff fn maxRetries = Some (Return v, failed_rounds k 1 ++ [Attempt]).
Proof.
  intros Hk Hfail Hok. unfold retryWithBackoff.
  rewrite (retry_loop_rounds k); [|lia|lia|exact Hfail].
  destruct (S (Z.to_nat maxRetries) - k)%nat as [|fuel] eqn:Hfuel; [lia|].
  cbn [retry_loop]. rewrite Nat.add_0_l, Hok.
  replace (1 + Z.of_nat k <=? maxRetries) with true
    by (symmetry; apply Z.leb_le; lia).
  reflexivity.
Qed.

(** The attempt after [k] rate-limited ones fails, and either the fault is
    not a rate limit or the attempt is the last one allowed. *)
Lemma retry_then_failure (k : nat) (e : JsError) :
  Z.of_nat k < maxRetries ->
  (forall i, (i < k)%nat -> rate_limited (fn i)) ->
  fn k = Throw e ->
  status_is e 429 = false \/ Z.of_nat (S k) = maxRetries ->
  retryWithBackoff fn maxRetries = Some (Throw e, failed_rounds k 1 ++ [Attempt]).
Proof.
  intros Hk Hfail Herr Hwhy. unfold retryWithBackoff.
  rewrite (retry_loop_rounds k); [|lia|lia|exact Hfail].
  destruct (S (Z.to_nat maxRetries) - k)%nat as [|fuel] eqn:Hfuel; [lia|].
  cbn [retry_loop]. rewrite Nat.add_0_l, Herr.
  replace (1 + Z.of_nat k <=? maxRetries) with true
    by (symmetry; apply Z.leb_le; lia).
  destruct Hwhy as [Hother|Hlast].
  - rewrite Hother. reflexivity.
  - replace (1 + Z.of_nat k <? maxRetries) with false
      by (symmetry; apply Z.ltb_ge; lia).
    rewrite andb_false_r. reflexivity.
Qed.

End RetryFacts.

(** Attempts and sleeps of a trace of failed rounds. *)
Lemma attempts_failed_rounds (k : nat) :
  forall a tl,
    Retry.attempts (Retry.failed_rounds k a ++ tl) = (k + Retry.attempts tl)%nat.
Proof.
  unfold Retry.attempts.
  induction k as [|k IH]; intros a tl; [reflexivity|].
  cbn [Retry.failed_rounds app filter Retry.event_eqb List.length].
  rewrite IH. reflexivity.
Qed.

Lemma sleeps_failed_rounds (k : nat) :
  forall a,
    Retry.sleeps (Retry.failed_rounds k (Z.of_nat a) ++ [Retry.Attempt])
    = map (fun i => Z.min (1000 * 2 ^ Z.of_nat i) 30000) (seq a k).
Proof.
  induction k as [|k IH]; intros a; [reflexivity|].
  cbn [Retry.failed_rounds app Retry.sleeps seq map].
  replace (Z.of_nat a + 1) with (Z.of_nat (S a)) by lia.
  rewrite IH. reflexivity.
Qed.

(** C3 (amended): an operation that fails with a rate-limit fault (status
    429) exactly [k] times, [k < maxRetries], and then succeeds makes
    [retryWithBackoff] return the success value after [k + 1] attempts, with
    one sleep between consecutive attempts; the sleep after the [i]-th
    attempt ([i] counted from 1) lasts [min(1000 * 2^i, 30000)] ms, that is
    2000, 4000, 8000, 16000, then 30000 ms. *)
Theorem retry_succeeds_after_rate_limits
    (T : Type) (fn : nat -> result T) (maxRetries : Z) (k : nat) (v : T) :
  Z.of_nat k < maxRetries ->
  (forall i, (i < k)%nat -> Retry.rate_limited (fn i)) ->
  fn k = Return v ->
  exists tr,
    Retry.retryWithBackoff fn maxRetries = Some (Return v, tr)
    /\ tr = Retry.failed_rounds k 1 ++ [Retry.Attempt]
    /\ Retry.attempts tr = S k
    /\ Retry.sleeps tr
       = map (fun i => Z.min (1000 * 2 ^ Z.of_nat i) 30000) (seq 1 k).
Proof.
  intros Hk Hfail Hok.
  exists (Retry.failed_rounds k 1 ++ [Retry.Attempt]).
  split; [now apply retry_then_success|].
  split; [reflexivity|].
  split.
  - rewrite attempts_failed_rounds. cbn. lia.
  - exact (sleeps_failed_rounds k 1).
Qed.

Lemma retry_succeeds_after_rate_limits_witness :
  exists tr,
    Retry.retryWithBackoff (Examples.limited_then 2 7) 3 = Some (Return 7, tr)
    /\ tr = Retry.failed_rounds 2 1 ++ [Retry.Attempt]
    /\ Retry.attempts tr = 3%nat
    /\ Retry.sleeps tr = [2000; 4000].
Proof.
  apply (retry_succeeds_after_rate_limits Z (Examples.limited_then 2 7) 3 2 7).
  - lia.
  - intros i Hi. exists Examples.too_many_requests.
    destruct i as [|[|i]]; [split; reflexivity | split; reflexivity | lia].
  - reflexivity.
Defined.

(** C3 (as stated) fails: after one rate-limit fault the sleep lasts 2000
    ms, not the 1000 ms that heads the listed delays. *)
Lemma retry_first_delay_not_1000 :
  ~ (forall (fn : nat -> result Z) (maxRetries : Z) (k : nat) (v : Z),
        Z.of_nat k < maxRetries ->
        (forall i, (i < k)%nat -> Retry.rate_limited (fn i)) ->
        fn k = Return v ->
        exists tr,
          Retry.retryWithBackoff fn maxRetries = Some (Return v, tr)
          /\ Retry.attempts tr = S k
          /\ Retry.sleeps tr = Retry.listed_delays k).
Proof.
  intros claim.
  destruct (claim (Examples.limited_then 1 7) 3 1%nat 7) as (tr & Hrun & _ & Hs).
  - lia.
  - intros i Hi. exists Examples.too_many_requests.
    destruct i; [split; reflexivity | lia].
  - reflexivity.
  - vm_compute in Hrun. injection Hrun as <-. vm_compute in Hs. discriminate Hs.
Qed.

(** C4 (amended): when the attempt that follows [k] rate-limited ones fails,
    [retryWithBackoff] makes no further attempt and throws that very
    failure if it is not a rate-limit fault (for [k = 0]: at once, with zero
    retries) or if it is the last of the [maxRetries] attempts; so when all
    [maxRetries] attempts are rate-limited the error thrown is the last
    rate-limit fault itself (status 429), which is not the
    "Max retries exceeded" error. *)
Theorem retry_propagates_failure
    (T : Type) (fn : nat -> result T) (maxRetries : Z) (k : nat) (e : JsError) :
  Z.of_nat k < maxRetries ->
  (forall i, (i < k)%nat -> Retry.rate_limited (fn i)) ->
  fn k = Throw e ->
  status_is e 429 = false \/ Z.of_nat (S k) = maxRetries ->
  exists tr,
    Retry.retryWithBackoff fn maxRetries = Some (Throw e, tr)
    /\ tr = Retry.failed_rounds k 1 ++ [Retry.Attempt]
    /\ Retry.attempts tr = S k
    /\ (status_is e 429 = true -> e <> Error "Max retries exceeded").
Proof.
  intros Hk Hfail Herr Hwhy.
  exists (Retry.failed_rounds k 1 ++ [Retry.Attempt]).
  split; [now apply retry_then_failure|].
  split; [reflexivity|].
  split.
  - rewrite attempts_failed_rounds. cbn. lia.
  - intros H429 ->. discriminate H429.
Qed.

Lemma retry_propagates_failure_witness :
  exists tr,
    Retry.retryWithBackoff Examples.always_limited 3
    = Some (Throw Examples.too_many_requests, tr)
    /\ tr = Retry.failed_rounds 2 1 ++ [Retry.Attempt]
    /\ Retry.attempts tr = 3%nat
    /\ (status_is Examples.too_many_requests 429 = true ->
        Examples.too_many_requests <> Error "Max retries exceeded").
Proof.
  apply (retry_propagates_failure Z Examples.always_limited 3 2
                                  Examples.too_many_requests).
  - lia.
  - intros i _. exists Examples.too_many_requests. split; reflexivity.
  - reflexivity.
  - right. reflexivity.
Defined.

(** C4 (as stated) fails: with every one of the [maxRetries] attempts
    rate-limited, the error thrown is not "Max retries exceeded". *)
Lemma retry_exhausted_rethrows_rate_limit :
  ~ (forall (fn : nat -> result Z) (maxRetries : Z),
        0 < maxRetries ->
        (forall i, Z.of_nat i < maxRetries -> Retry.rate_limited (fn i)) ->
        exists tr,
          Retry.retryWithBackoff fn maxRetries
          = Some (Throw (Error "Max retries exceeded"), tr)).
Proof.
  intros claim.
  destruct (claim Examples.always_limited 3) as (tr & Hrun).
  - lia.
  - intros i _. exists Examples.too_many_requests. split; reflexivity.
  - vm_compute in Hrun. discriminate Hrun.
Qed.

(** C10: with [maxRetries] zero or negative, [retryWithBackoff] never
    invokes the operation (its trace is empty) and throws the error
    "Max retries exceeded". *)
Theorem retry_without_attempts
    (T : Type) (fn : nat -> result T) (maxRetries : Z) :
  maxRetries <= 0 ->
  Retry.retryWithBackoff fn maxRetries
  = Some (Throw (Error "Max retries exceeded"), []).
Proof.
  intros Hle. unfold Retry.retryWithBackoff.
  replace (Z.to_nat maxRetries) with 0%nat by lia.
  cbn [Retry.retry_loop].
  replace (1 <=? maxRetries) with false by (symmetry; apply Z.leb_gt; lia).
  reflexivity.
Qed.

Lemma retry_without_attempts_witness :
  0 <= 0
  /\ Retry.retryWithBackoff (Examples.limited_then 0 7) 0
     = Some (Throw (Error "Max retries exceeded"), []).
Proof.
  split; [lia|].
  apply (retry_without_attempts Z (Examples.limited_then 0 7) 0). lia.
Defined.

(** ** Inventory search tool *)

Section SearchFacts.

Import Search.

Variable collection : Collaborators.
Variable query : string.
Variable n_arg : option Q.

Ltac run_steps :=
  unfold run_tool, itemLookupTool, try_catch, search_steps, caught, property,
    catch_outcome, bind, await, ret.

(** The outcome of the tool in each of the five courses the [try] block can
    take. *)
Lemma tool_count_fault (e : JsValue) :
  countDocuments collection = Throw e ->
  run_tool collection query n_arg
  = (catch_outcome query e, [CountDocuments]).
Proof.
  intros H. run_steps. rewrite H. cbn.
  destruct (js_property e "message"); reflexivity.
Qed.

Lemma tool_empty_collection :
  countDocuments collection = Return 0 ->
  run_tool collection query n_arg
  = (Return (EmptyPayload "No items found in inventory"
                          "The inventory database appears to be empty" 0),
     [CountDocuments]).
Proof. intros H. run_steps. rewrite H. reflexivity. Qed.

Lemma tool_vector_fault (total : Z) (e : JsValue) :
  countDocuments collection = Return total -> total <> 0 ->
  similaritySearchWithScore collection query (n_or_default n_arg) = Throw e ->
  run_tool collection query n_arg
  = (catch_outcome query e,
     [CountDocuments; SimilaritySearchWithScore query (n_or_default n_arg)]).
Proof.
  intros Hc Hne Hv. run_steps. rewrite Hc.
  apply Z.eqb_neq in Hne. rewrite Hne. cbn. rewrite Hv. cbn.
  destruct (js_property e "message"); reflexivity.
Qed.

Lemma tool_vector_hits (total : Z) (hits : list ScoredDocument) :
  countDocuments collection = Return total -> total <> 0 ->
  similaritySearchWithScore collection query (n_or_default n_arg) = Return hits ->
  hits <> [] ->
  run_tool collection query n_arg
  = (Return (ResultsPayload (VectorResults hits) "vector" query
                            (Z.of_nat (List.length hits))),
     [CountDocuments; SimilaritySearchWithScore query (n_or_default n_arg)]).
Proof.
  intros Hc Hne Hv Hhits. run_steps. rewrite Hc.
  apply Z.eqb_neq in Hne. rewrite Hne. cbn. rewrite Hv.
  destruct hits; [congruence|reflexivity].
Qed.

Lemma tool_text_results (total : Z) (docs : list Document) :
  countDocuments collection = Return total -> total <> 0 ->
  similaritySearchWithScore collection query (n_or_default n_arg) = Return [] ->
  find collection (text_filter query) (n_or_default n_arg) = Return docs ->
  run_tool collection query n_arg
  = (Return (ResultsPayload (TextResults docs) "text" query
                            (Z.of_nat (List.length docs))),
     [CountDocuments; SimilaritySearchWithScore query (n_or_default n_arg);
      Find (text_filter query) (n_or_default n_arg)]).
Proof.
  intros Hc Hne Hv Hf. run_steps. rewrite Hc.
  apply Z.eqb_neq in Hne. rewrite Hne. cbn. rewrite Hv. cbn. rewrite Hf.
  reflexivity.
Qed.

Lemma tool_text_fault (total : Z) (e : JsValue) :
  countDocuments collection = Return total -> total <> 0 ->
  similaritySearchWithScore collection query (n_or_default n_arg) = Return [] ->
  find collection (text_filter query) (n_or_default n_arg) = Throw e ->
  run_tool collection query n_arg
  = (catch_outcome query e,
     [CountDocuments; SimilaritySearchWithScore query (n_or_default n_arg);
      Find (text_filter query) (n_or_default n_arg)]).
Proof.
  intros Hc Hne Hv Hf. run_steps. rewrite Hc.
  apply Z.eqb_neq in Hne. rewrite Hne. cbn. rewrite Hv. cbn. rewrite Hf. cbn.
  destruct (js_property e "message"); reflexivity.
Qed.


(** The [try] block throws only what a collaborator threw. *)
Lemma search_steps_fault (e : JsValue) (log : list call) :
  search_steps collection query (n_or_default n_arg) [] = (Throw e, log) ->
  countDocuments collection = Throw e
  \/ similaritySearchWithScore collection query (n_or_default n_arg) = Throw e
  \/ find collection (text_filter query) (n_or_default n_arg) = Throw e.
Proof.
  unfold search_steps, bind, await, ret.
  destruct (countDocuments collection) as [total|e0]; cbn;
    [|intros [= ->]; now left].
  destruct (total =? 0); cbn; [discriminate|].
  destruct (similaritySearchWithScore collection query (n_or_default n_arg)) as [hits|e1]; cbn;
    [|intros [= ->]; right; now left].
  destruct (List.length hits =? 0)%nat; cbn; [|discriminate].
  destruct (find collection (text_filter query) (n_or_default n_arg)) as [docs|e2]; cbn;
    [discriminate|intros [= ->]; right; now right].
Qed.


End SearchFacts.







(** C6: on a non-empty collection, [k > 0] results of the vector search
    give the payload with [searchType] "vector", those results and count
    [k]; no vector result and [m] results of the lexical fallback give
    [searchType] "text" and count [m]; and on an empty collection the tool
    returns [{ error, message, count: 0 }] having called nothing but
    [countDocuments]. *)
Theorem tool_search_outcomes
    (collection : Search.Collaborators) (query : string) (n_arg : option Q)
    (total : Z) :
  Search.countDocuments collection = Return total ->
  (total = 0 ->
   Search.run_tool collection query n_arg
   = (Return (Search.EmptyPayload "No items found in inventory"
                "The inventory database appears to be empty" 0),
      [Search.CountDocuments]))
  /\ (total <> 0 ->
      forall hits,
        Search.similaritySearchWithScore
          collection query (Search.n_or_default n_arg) = Return hits ->
        hits <> [] ->
        fst (Search.run_tool collection query n_arg)
        = Return (Search.ResultsPayload (Search.VectorResults hits) "vector"
                    query (Z.of_nat (List.length hits))))
  /\ (total <> 0 ->
      Search.similaritySearchWithScore
        collection query (Search.n_or_default n_arg) = Return [] ->
      forall docs,
        Search.find collection (Search.text_filter query)
                    (Search.n_or_default n_arg) = Return docs ->
        fst (Search.run_tool collection query n_arg)
        = Return (Search.ResultsPayload (Search.TextResults docs) "text"
                    query (Z.of_nat (List.length docs)))).
Proof.
  intros Hc. repeat split.
  - intros ->. now apply tool_empty_collection.
  - intros Hne hits Hv Hhits.
    now rewrite (tool_vector_hits collection query n_arg total hits).
  - intros Hne Hv docs Hf.
    now rewrite (tool_text_results collection query n_arg total docs).
Qed.

Lemma tool_search_outcomes_witness :
  fst (Search.run_tool (Mongo.collection_of [Examples.sofa] Examples.one_hit)
                       "red sofa" (Some (5 # 1)))
  = Return (Search.ResultsPayload
              (Search.VectorResults [(Examples.sofa, 9 # 10)]) "vector"
              "red sofa" 1).
Proof.
  apply (proj1 (proj2 (tool_search_outcomes
                         (Mongo.collection_of [Examples.sofa] Examples.one_hit)
                         "red sofa" (Some (5 # 1)) 1 eq_refl))).
  - discriminate.
  - reflexivity.
  - discriminate.
Defined.

(** ** The lexical fallback on a collection of the model *)

Section LexicalFacts.

Import Mongo Literal.

Lemma plain_cons (c : ascii) (q : string) :
  plain (String c q) = true ->
  Ascii.eqb c "\" = false /\ Ascii.eqb c "." = false
  /\ is_meta c = false /\ plain q = true.
Proof.
  cbn [plain]. intros H. apply andb_prop in H as [Hm Hq].
  apply negb_true_iff in Hm. repeat split; try assumption.
  - unfold is_meta in Hm. cbn [existsb] in Hm.
    apply orb_false_elim in Hm. tauto.
  - unfold is_meta in Hm. cbn [existsb] in Hm.
    repeat (apply orb_false_elim in Hm as [? Hm]). assumption.
Qed.

(** A plain query compiles to the literals of its characters. *)
Lemma compile_plain (q : string) :
  plain q = true -> compile q = Some (map Lit (list_ascii_of_string q)).
Proof.
  induction q as [|c q IH]; [reflexivity|].
  intros H. apply plain_cons in H as (Hb & Hd & Hm & Hq).
  cbn [compile list_ascii_of_string map]. rewrite Hb, Hd, Hm, (IH Hq).
  reflexivity.
Qed.

Lemma match_here_literal (q : string) :
  forall s,
    match_here true (map Lit (list_ascii_of_string q)) s = prefix_ci q s.
Proof.
  induction q as [|c q IH]; intros s; [reflexivity|].
  cbn [list_ascii_of_string map match_here prefix_ci].
  destruct s as [|b s]; [reflexivity|].
  cbn [atom_matches]. rewrite IH. reflexivity.
Qed.

Lemma regex_search_literal (q s : string) :
  regex_search true (map Lit (list_ascii_of_string q)) s = substring_ci q s.
Proof.
  induction s as [|b s IH]; cbn [regex_search substring_ci];
    rewrite match_here_literal; [reflexivity|].
  rewrite IH. reflexivity.
Qed.

Lemma regex_value_literal (q : string) (v : Bson) :
  regex_value true (map Lit (list_ascii_of_string q)) v = value_contains q v.
Proof.
  destruct v as [s|elems| |]; cbn [regex_value value_contains];
    try reflexivity.
  - apply regex_search_literal.
  - induction elems as [|e elems IH]; [reflexivity|].
    cbn [existsb]. rewrite IH.
    destruct e; try reflexivity. rewrite regex_search_literal. reflexivity.
Qed.

Lemma eval_cond_plain (f q : string) (d : Document) :
  plain q = true ->
  eval_cond (Search.mkRegex f q "i") d
  = Some match doc_get f d with
         | Some v => value_contains q v
         | None => false
         end.
Proof.
  intros Hq. unfold eval_cond.
  cbn [Search.cond_regex Search.cond_options Search.cond_field].
  rewrite (compile_plain q Hq). cbn.
  destruct (doc_get f d); [rewrite regex_value_literal|]; reflexivity.
Qed.

Lemma eval_or_text_filter (q : string) (d : Document) :
  plain q = true ->
  eval_or (Search.f_or (Search.text_filter q)) d = Some (doc_contains q d).
Proof.
  intros Hq. unfold Search.text_filter, doc_contains, searched_fields.
  cbn [Search.f_or eval_or existsb].
  rewrite !(eval_cond_plain _ q d Hq). reflexivity.
Qed.

Lemma select_text_filter (q : string) (items : list Document) :
  plain q = true ->
  select (Search.f_or (Search.text_filter q)) items
  = Some (filter (doc_contains q) items).
Proof.
  intros Hq. induction items as [|d items IH]; [reflexivity|].
  cbn [select filter]. rewrite (eval_or_text_filter q d Hq), IH. reflexivity.
Qed.

(** On a plain query and a positive integer limit, [find] with the tool's
    filter is the literal search. *)
Lemma find_plain (items : list Document) (q : string) (n : Q) (k : nat) :
  plain q = true ->
  positive_integer n = Some k ->
  Mongo.find items (Search.text_filter q) n = Some (lexical_search items q k).
Proof.
  intros Hq Hk. unfold Mongo.find. rewrite (select_text_filter q items Hq), Hk.
  reflexivity.
Qed.

Lemma collection_of_backed (items : list Document)
    (vector : string -> Q -> outcome JsValue (list Search.ScoredDocument)) :
  backed_by (collection_of items vector) items.
Proof.
  split; [reflexivity|].
  intros filter n ds H. cbn. rewrite H. reflexivity.
Qed.

Lemma collection_with_served (limit : CursorLimit) (items : list Document)
    (vector : string -> Q -> outcome JsValue (list Search.ScoredDocument)) :
  served_with limit (collection_with limit items vector) items.
Proof.
  split; [reflexivity|].
  intros filter n r H. cbn. rewrite H. reflexivity.
Qed.

Lemma positive_integer_positive (n : Q) (k : nat) :
  positive_integer n = Some k -> (0 < n)%Q /\ (0 < k)%nat.
Proof.
  unfold positive_integer.
  destruct ((Zpos (Qden (Qred n)) =? 1) && (0 <? Qnum (Qred n))) eqn:H;
    [|discriminate].
  intros [= <-]. apply andb_prop in H as [_ Hnum]. apply Z.ltb_lt in Hnum.
  split; [|lia].
  rewrite <- (Qred_correct n). unfold Qlt. cbn. lia.
Qed.

Lemma example_limit_laws : cursor_laws example_limit.
Proof.
  split.
  - intros n k ds Hk. unfold example_limit. rewrite Hk.
    destruct (Qeq_bool n 0) eqn:Hz; [|reflexivity].
    apply Qeq_bool_eq in Hz.
    destruct (positive_integer_positive n k Hk) as [Hpos _].
    rewrite Hz in Hpos. discriminate Hpos.
  - intros n ds Hz. unfold example_limit.
    apply Qeq_eq_bool in Hz. rewrite Hz. reflexivity.
Qed.

(** With a plain query, [find] under any cursor limit hands the literal
    matches to that limit. *)
Lemma find_with_plain (limit : CursorLimit) (items : list Document)
    (q : string) (n : Q) :
  plain q = true ->
  find_with limit items (Search.text_filter q) n
  = Some (limit n (filter (doc_contains q) items)).
Proof.
  intros Hq. unfold find_with. rewrite (select_text_filter q items Hq).
  reflexivity.
Qed.

End LexicalFacts.

(** C7 (amended): when the vector search yields no result on a non-empty
    collection, then for every query without metacharacters
    ([\ ^ $ . | ? * + ( ) [ ] { }]) the lexical fallback is the
    case-insensitive literal substring search of [item_name],
    [item_description], [categories] and [embedding_text], with [n] handed
    to the cursor's limit: what the tool returns is what [limit(n)] yields
    from the matching documents, for every [n]; that is the first [n]
    matches when [n] is a positive integer, and all of them when [n] is
    0. *)
Theorem lexical_fallback_literal_on_plain_queries
    (collection : Search.Collaborators) (items : list Document)
    (limit : Mongo.CursorLimit) (query : string) (n_arg : option Q) :
  Mongo.served_with limit collection items ->
  Mongo.cursor_laws limit ->
  items <> [] ->
  Search.similaritySearchWithScore collection query (Search.n_or_default n_arg)
  = Return [] ->
  Literal.plain query = true ->
  let n := Search.n_or_default n_arg in
  let matches := filter (Literal.doc_contains query) items in
  let calls :=
    [Search.CountDocuments; Search.SimilaritySearchWithScore query n;
     Search.Find
       (Search.mkFilter
          [Search.mkRegex "item_name" query "i";
           Search.mkRegex "item_description" query "i";
           Search.mkRegex "categories" query "i";
           Search.mkRegex "embedding_text" query "i"]) n] in
  (forall docs,
      limit n matches = Return docs ->
      Search.run_tool collection query n_arg
      = (Return (Search.ResultsPayload (Search.TextResults docs) "text" query
                   (Z.of_nat (List.length docs))), calls))
  /\ (forall e,
         limit n matches = Throw e ->
         Search.run_tool collection query n_arg
         = (catch_outcome query e, calls))
  /\ (forall k,
         Mongo.positive_integer n = Some k ->
         Search.run_tool collection query n_arg
         = (Return (Search.ResultsPayload
                      (Search.TextResults (firstn k matches)) "text" query
                      (Z.of_nat (List.length (firstn k matches)))), calls))
  /\ (Qeq n 0 ->
      Search.run_tool collection query n_arg
      = (Return (Search.ResultsPayload (Search.TextResults matches) "text"
                   query (Z.of_nat (List.length matches))), calls)).
Proof.
  intros [Hcount Hfind] [Hpos Hzero] Hne Hv Hplain n matches calls.
  assert (Hnz : Z.of_nat (List.length items) <> 0)
    by (destruct items; [congruence|cbn; lia]).
  assert (Hanswer :
    Search.find collection (Search.text_filter query) n = limit n matches)
    by (apply Hfind; now apply find_with_plain).
  assert (Hdocs : forall docs,
             limit n matches = Return docs ->
             Search.run_tool collection query n_arg
             = (Return (Search.ResultsPayload (Search.TextResults docs) "text"
                          query (Z.of_nat (List.length docs))), calls)).
  { intros docs Hlim.
    apply (tool_text_results collection query n_arg
                             (Z.of_nat (List.length items)) docs Hcount Hnz Hv).
    fold n. now rewrite Hanswer. }
  split; [exact Hdocs|]. split; [|split].
  - intros e Hlim.
    apply (tool_text_fault collection query n_arg
                           (Z.of_nat (List.length items)) e Hcount Hnz Hv).
    fold n. now rewrite Hanswer.
  - intros k Hk. apply Hdocs, Hpos, Hk.
  - intros Hz. apply Hdocs, Hzero, Hz.
Qed.

Lemma lexical_fallback_literal_on_plain_queries_witness :
  Search.run_tool Scenarios.limited_inventory "SOFA" (Some (5 # 1))
  = (Return (Search.ResultsPayload (Search.TextResults [Examples.sofa]) "text"
               "SOFA" 1),
     [Search.CountDocuments;
      Search.SimilaritySearchWithScore "SOFA" (5 # 1);
      Search.Find (Search.text_filter "SOFA") (5 # 1)]).
Proof.
  apply (proj1 (proj2 (proj2
           (lexical_fallback_literal_on_plain_queries
              Scenarios.limited_inventory [Examples.sofa] Mongo.example_limit
              "SOFA" (Some (5 # 1))
              (collection_with_served Mongo.example_limit [Examples.sofa]
                                      Examples.no_hits)
              example_limit_laws ltac:(discriminate) eq_refl eq_refl)))
         5%nat).
  reflexivity.
Defined.

(** C7 (as stated) fails twice over.  The query is not taken as a literal
    substring: on the query "a.c" the fallback returns a document in which
    "a.c" occurs nowhere (its name is "abc sofa").  And the results are not
    always limited to [n]: with [n = 0] the cursor sets no limit and the
    fallback returns one document. *)
Lemma lexical_fallback_not_literal_nor_capped :
  (~ (forall (collection : Search.Collaborators) (items : list Document)
            (query : string) (n_arg : option Q) (k : nat),
        Mongo.backed_by collection items ->
        items <> [] ->
        Search.similaritySearchWithScore
          collection query (Search.n_or_default n_arg) = Return [] ->
        Mongo.positive_integer (Search.n_or_default n_arg) = Some k ->
        fst (Search.run_tool collection query n_arg)
        = Return (Search.ResultsPayload
                    (Search.TextResults (Literal.lexical_search items query k))
                    "text" query
                    (Z.of_nat (List.length
                                 (Literal.lexical_search items query k))))))
  /\ ~ (forall (collection : Search.Collaborators) (items : list Document)
               (limit : Mongo.CursorLimit) (query : string)
               (n_arg : option Q) (docs : list Document),
           Mongo.served_with limit collection items ->
           Mongo.cursor_laws limit ->
           items <> [] ->
           Search.similaritySearchWithScore
             collection query (Search.n_or_default n_arg) = Return [] ->
           Literal.plain query = true ->
           fst (Search.run_tool collection query n_arg)
           = Return (Search.ResultsPayload (Search.TextResults docs) "text"
                       query (Z.of_nat (List.length docs))) ->
           (inject_Z (Z.of_nat (List.length docs))
            <= Search.n_or_default n_arg)%Q).
Proof.
  split.
  - intros claim.
    specialize (claim Examples.inventory [Examples.sofa] "a.c" (Some (5 # 1))
                      5%nat
                      (collection_of_backed [Examples.sofa] Examples.no_hits)
                      ltac:(discriminate) eq_refl eq_refl).
    vm_compute in claim. discriminate claim.
  - intros claim.
    specialize (claim Scenarios.limited_inventory [Examples.sofa]
                      Mongo.example_limit "sofa" (Some (0 # 1))
                      [Examples.sofa]
                      (collection_with_served Mongo.example_limit
                                              [Examples.sofa] Examples.no_hits)
                      example_limit_laws ltac:(discriminate) eq_refl eq_refl
                      eq_refl).
    vm_compute in claim. apply claim. reflexivity.
Qed.

(** ** Argument schema *)

(** C9 (amended): [n] defaults to 10 when omitted, in the schema
    ([.default(10)]) and again in the function's parameter list
    ([n = 10]); and the schema accepts every supplied number as it is: it
    requires neither an integer nor a value greater than 0. *)
Theorem schema_default_and_numbers :
  (forall query,
      Schema.parse Schema.itemLookup_schema (Schema.args query None)
      = Some (Schema.args query (Some (10 # 1))))
  /\ (forall query, Schema.validated_n (Schema.args query None) = Some (10 # 1))
  /\ Search.n_or_default None = 10 # 1
  /\ (forall query q,
         Schema.parse Schema.itemLookup_schema (Schema.args query (Some q))
         = Some (Schema.args query (Some q)))
  /\ (forall query q, Schema.validated_n (Schema.args query (Some q)) = Some q).
Proof.
  repeat split; intros; reflexivity.
Qed.

(** C9 (as stated) fails: the schema accepts [n = 0], which is not strictly
    greater than 0. *)
Lemma schema_accepts_zero :
  ~ (forall query q,
        Schema.validated_n (Schema.args query (Some q)) = Some q ->
        Schema.is_positive_integer q).
Proof.
  intros claim.
  destruct (claim "red sofa" (0 # 1) eq_refl) as (k & Hk & Heq).
  unfold Qeq in Heq. cbn in Heq. lia.
Qed.

(** The schema also accepts a number that is not an integer. *)
Example schema_accepts_fraction :
  Schema.validated_n (Schema.args "red sofa" (Some (5 # 2))) = Some (5 # 2)
  /\ ~ Schema.is_positive_integer (5 # 2).
Proof.
  split; [reflexivity|].
  intros (k & Hk & Heq). unfold Qeq in Heq. cbn in Heq. lia.
Qed.

(** ** Workflow *)

Section GraphFacts.

Import Graph.

Lemma last_message_app (msgs : list BaseMessage) (m : BaseMessage) :
  last_message {| messages := msgs ++ [m] |} = Some m.
Proof.
  unfold last_message. cbn [messages].
  rewrite length_app. cbn [List.length].
  replace (List.length msgs + 1 - 1)%nat with (List.length msgs) by lia.
  rewrite nth_error_app2 by lia. rewrite Nat.sub_diag. reflexivity.
Qed.

(** [shouldContinue] answers "tools" or "__end__" and nothing else. *)
Lemma shouldContinue_names (st : State) (name : string) :
  shouldContinue st = Return name -> name = "tools" \/ name = "__end__".
Proof.
  unfold shouldContinue.
  destruct (last_message st) as [m|]; [|discriminate].
  destruct (tool_calls m) as [calls|]; [|intros [= <-]; now right].
  destruct (List.length calls =? 0)%nat; intros [= <-]; [now right|now left].
Qed.

(** The node after [agent] or [tools] is never the entry point. *)
Lemma next_node_not_start (cur : Node) (st : State) (nxt : Node) :
  cur = agent \/ cur = tools ->
  next_node cur st = Return nxt -> nxt <> START.
Proof.
  intros [-> | ->]; unfold next_node; cbn [workflow].
  - destruct (shouldContinue st) as [name|e] eqn:Hs; [|discriminate].
    destruct (shouldContinue_names st name Hs) as [-> | ->]; cbn;
      intros [= <-]; discriminate.
  - intros [= <-]. discriminate.
Qed.

Variable model : nat -> list BaseMessage -> result ModelReply.
Variable toolNode : list BaseMessage -> result (list BaseMessage).

(** Executing a node always yields an update or a fault. *)
Lemma execute_total (n : Node) (st : State) (invoked : nat) :
  exists r, execute model toolNode n st invoked = Some r.
Proof.
  destruct n; cbn [execute]; eauto.
  unfold callModel.
  destruct (retryWithBackoff_total
              (fun i => match model (invoked + i)%nat (messages st) with
                        | Return r => Return [reply_message r]
                        | Throw e => Throw e
                        end) Retry.default_maxRetries) as ([r tr] & ->).
  eauto.
Qed.

(** From any node but the entry point, with [steps] executions behind it and
    fuel for the executions the ceiling still allows, the run ends, within
    the ceiling; it ends on the ceiling error only with the ceiling
    reached. *)
Lemma run_within_limit (fuel : nat) :
  forall cur st steps invoked,
    cur <> START ->
    (steps <= recursionLimit)%nat ->
    (recursionLimit - steps < fuel)%nat ->
    exists out n,
      run model toolNode fuel cur st steps invoked = Some (out, n)
      /\ (steps <= n <= recursionLimit)%nat
      /\ (out = RecursionLimitExceeded -> n = recursionLimit).
Proof.
  induction fuel as [|fuel IH]; intros cur st steps invoked Hcur Hsteps Hfuel;
    [lia|].
  assert (Hnode : cur = END \/ cur = agent \/ cur = tools)
    by (destruct cur; tauto).
  destruct Hnode as [-> | Hnode].
  { exists (Completed st), steps. cbn. repeat split; try lia. discriminate. }
  assert (Hrun :
    run model toolNode (S fuel) cur st steps invoked
    = if (recursionLimit <=? steps)%nat then Some (RecursionLimitExceeded, steps)
      else
        match execute model toolNode cur st invoked with
        | None => None
        | Some (Throw e, _) => Some (NodeFailed e, S steps)
        | Some (Return update, invoked') =>
          match next_node cur (apply_update st update) with
          | Return nxt =>
            run model toolNode fuel nxt (apply_update st update) (S steps) invoked'
          | Throw e => Some (NodeFailed e, S steps)
          end
        end)
    by (destruct Hnode as [-> | ->]; reflexivity).
  rewrite Hrun. clear Hrun.
  destruct (recursionLimit <=? steps)%nat eqn:Hlim.
  { apply Nat.leb_le in Hlim.
    exists RecursionLimitExceeded, steps. repeat split; try lia. }
  apply Nat.leb_gt in Hlim.
  destruct (execute_total cur st invoked) as ([[update|e] invoked'] & ->).
  - destruct (next_node cur (apply_update st update)) as [nxt|e] eqn:Hnext.
    + destruct (IH nxt (apply_update st update) (S steps) invoked')
        as (out & n & Hout & Hn & Hceil); try lia.
      * exact (next_node_not_start cur _ nxt Hnode Hnext).
      * exists out, n. repeat split; try assumption; lia.
    + exists (NodeFailed e), (S steps). repeat split; try lia. discriminate.
  - exists (NodeFailed e), (S steps). repeat split; try lia. discriminate.
Qed.

End GraphFacts.



(** C2: for every conversation history, every behaviour of the model and of
    the tool node, one call to the orchestrator ends: after at most 15 node
    executions it has completed or failed in a node, or it aborts with the
    recursion-limit error, and then after exactly 15 executions; [callAgent]
    re-throws that error as "Agent failed: ...". *)
Theorem orchestrator_within_recursion_limit
    (model : nat -> list Graph.BaseMessage -> result Graph.ModelReply)
    (toolNode : list Graph.BaseMessage -> result (list Graph.BaseMessage))
    (checkpoint : Graph.State) (query recursion_msg : string) (fuel : nat) :
  (Graph.recursionLimit + 2 <= fuel)%nat ->
  exists out steps r,
    Graph.invoke model toolNode fuel checkpoint [Graph.HumanMessage query]
    = Some (out, steps)
    /\ Graph.callAgent fuel recursion_msg model toolNode checkpoint query
       = Some (r, steps)
    /\ (steps <= 15)%nat
    /\ (out = Graph.RecursionLimitExceeded ->
        steps = 15%nat
        /\ r = Throw (Error (String.append "Agent failed: " recursion_msg))).
Proof.
  intros Hfuel. unfold Graph.callAgent, Graph.invoke.
  destruct fuel as [|fuel]; [lia|].
  cbn [Graph.run Graph.next_node Graph.workflow].
  destruct (run_within_limit model toolNode fuel Graph.agent
              (Graph.apply_update checkpoint [Graph.HumanMessage query]) 0 0)
    as (out & n & -> & Hn & Hceil); try discriminate; try lia.
  unfold Graph.recursionLimit in *.
  destruct out as [final|e|].
  - destruct (Graph.last_message final) as [m|];
      eexists _, n, _; repeat split; try lia; discriminate.
  - eexists _, n, _; repeat split; try lia; discriminate.
  - eexists _, n, _; repeat split; try lia; auto.
Qed.

Lemma orchestrator_within_recursion_limit_witness :
  exists out steps r,
    Graph.invoke Examples.looping_model Examples.echo_tools 17
                 {| Graph.messages := [] |} [Graph.HumanMessage "red sofa?"]
    = Some (out, steps)
    /\ Graph.callAgent 17 "Recursion limit reached"
                       Examples.looping_model Examples.echo_tools
                       {| Graph.messages := [] |} "red sofa?"
       = Some (r, steps)
    /\ (steps <= 15)%nat
    /\ (out = Graph.RecursionLimitExceeded ->
        steps = 15%nat
        /\ r = Throw (Error (String.append "Agent failed: "
                                           "Recursion limit reached"))).
Proof.
  apply (orchestrator_within_recursion_limit
           Examples.looping_model Examples.echo_tools
           {| Graph.messages := [] |} "red sofa?" "Recursion limit reached" 17).
  unfold Graph.recursionLimit. lia.
Defined.

(** A model that keeps asking for the tool is stopped at the ceiling; one
    that answers at once takes a single step. *)
Example looping_model_is_stopped :
  Graph.invoke Examples.looping_model Examples.echo_tools 17
               {| Graph.messages := [] |} [Graph.HumanMessage "red sofa?"]
  = Some (Graph.RecursionLimitExceeded, 15%nat).
Proof. vm_compute. reflexivity. Qed.

Example direct_model_completes :
  Graph.callAgent 17 "Recursion limit reached"
                  Examples.direct_model Examples.echo_tools
                  {| Graph.messages := [Graph.HumanMessage "hi";
                                        Graph.AIMessage "Hello" None] |}
                  "red sofa?"
  = Some (Return "Hello", 1%nat).
Proof. vm_compute. reflexivity. Qed.

(** * Further properties of the code *)

(** ** Retry policy: the shape of every execution *)

Section RetryShape.

Import Retry.

Context {T : Type}.
Variable fn : nat -> result T.
Variable maxRetries : Z.

(** Whatever the operation does, a loop that still has an attempt to make
    goes through some number [k] of rate-limited rounds and ends with one
    more attempt, whose outcome is the outcome of the loop. *)
Lemma retry_loop_shape (fuel : nat) :
  forall attempt calls tr r tr',
    retry_loop fn maxRetries fuel attempt calls tr = Some (r, tr') ->
    attempt <= maxRetries ->
    exists k,
      tr' = tr ++ failed_rounds k attempt ++ [Attempt]
      /\ attempt + Z.of_nat k <= maxRetries
      /\ r = fn (calls + k)%nat
      /\ (forall i, (i < k)%nat -> rate_limited (fn (calls + i)%nat))
      /\ (rate_limited r -> attempt + Z.of_nat k = maxRetries).
Proof.
  induction fuel as [|fuel IH]; intros attempt calls tr r tr' Hrun Hle;
    [discriminate|].
  cbn [retry_loop] in Hrun.
  replace (attempt <=? maxRetries) with true in Hrun
    by (symmetry; apply Z.leb_le; lia).
  destruct (fn calls) as [v|e] eqn:Hfn.
  - injection Hrun as <- <-. exists 0%nat.
    rewrite Nat.add_0_r, Z.add_0_r, Hfn. cbn [failed_rounds app].
    repeat split; try lia.
    intros (e & He & _). discriminate He.
  - destruct (status_is e 429) eqn:H429; cbn [andb] in Hrun.
    + destruct (attempt <? maxRetries) eqn:Hlt.
      * apply Z.ltb_lt in Hlt.
        apply IH in Hrun as (k & -> & Hk & -> & Hfail & Hlast); [|lia].
        exists (S k). cbn [failed_rounds]. rewrite <- app_assoc. cbn [app].
        replace (calls + S k)%nat with (S calls + k)%nat by lia.
        repeat split; try lia.
        -- intros i Hi. destruct i as [|i].
           ++ rewrite Nat.add_0_r. exists e. now split.
           ++ replace (calls + S i)%nat with (S calls + i)%nat by lia.
              apply Hfail. lia.
        -- intros Hr. specialize (Hlast Hr). lia.
      * apply Z.ltb_ge in Hlt. injection Hrun as <- <-. exists 0%nat.
        rewrite Nat.add_0_r, Z.add_0_r, Hfn. cbn [failed_rounds app].
        repeat split; lia.
    + injection Hrun as <- <-. exists 0%nat.
      rewrite Nat.add_0_r, Z.add_0_r, Hfn. cbn [failed_rounds app].
      repeat split; try lia.
      intros (e' & [= <-] & He'). congruence.
Qed.

(** With at least one attempt allowed, [retryWithBackoff] is determined by
    the first invocation that is not rate-limited, or by the last one
    allowed. *)
Lemma retryWithBackoff_shape :
  1 <= maxRetries ->
  exists k,
    retryWithBackoff fn maxRetries
    = Some (fn k, failed_rounds k 1 ++ [Attempt])
    /\ Z.of_nat k < maxRetries
    /\ (forall i, (i < k)%nat -> rate_limited (fn i))
    /\ (rate_limited (fn k) -> Z.of_nat (S k) = maxRetries).
Proof.
  intros Hmax.
  destruct (retryWithBackoff_total fn maxRetries) as ([r tr] & Hrun).
  pose proof Hrun as Hrun'. unfold retryWithBackoff in Hrun'.
  apply retry_loop_shape in Hrun' as (k & Htr & Hk & Hr & Hfail & Hlast);
    [|lia].
  cbn [app Nat.add] in Htr, Hr, Hfail. subst r tr.
  exists k. repeat split; try assumption; try lia.
  intros Hrl. specialize (Hlast Hrl). lia.
Qed.

End RetryShape.

Lemma backoff_delay_bounds (a : Z) :
  1 <= a -> 2000 <= Retry.backoff_delay a <= 30000.
Proof.
  intros Ha. unfold Retry.backoff_delay.
  assert (2 ^ 1 <= 2 ^ a) by (apply Z.pow_le_mono_r; lia).
  change (2 ^ 1) with 2 in *. lia.
Qed.

Lemma backoff_delay_mono (a b : Z) :
  0 <= a <= b -> Retry.backoff_delay a <= Retry.backoff_delay b.
Proof.
  intros Hab. unfold Retry.backoff_delay.
  assert (2 ^ a <= 2 ^ b) by (apply Z.pow_le_mono_r; lia).
  lia.
Qed.

Lemma sleeps_failed_rounds_length (k : nat) :
  forall a tl,
    Retry.sleeps (Retry.failed_rounds k a ++ tl)
    = Retry.sleeps (Retry.failed_rounds k a) ++ Retry.sleeps tl
    /\ List.length (Retry.sleeps (Retry.failed_rounds k a)) = k.
Proof.
  induction k as [|k IH]; intros a tl; [split; reflexivity|].
  cbn [Retry.failed_rounds app Retry.sleeps List.length].
  destruct (IH (a + 1) tl) as [-> ->]. split; reflexivity.
Qed.

Lemma sleeps_failed_rounds_bounds (k : nat) :
  forall a,
    1 <= a ->
    Forall (fun d => 2000 <= d <= 30000)
           (Retry.sleeps (Retry.failed_rounds k a))
    /\ fold_right Z.add 0 (Retry.sleeps (Retry.failed_rounds k a))
       <= 30000 * Z.of_nat k.
Proof.
  induction k as [|k IH]; intros a Ha; [split; [constructor|cbn; lia]|].
  cbn [Retry.failed_rounds Retry.sleeps fold_right].
  destruct (IH (a + 1) ltac:(lia)) as [Hall Hsum].
  pose proof (backoff_delay_bounds a Ha).
  split; [constructor; assumption|lia].
Qed.

(** X1: with at least one attempt allowed, [retryWithBackoff] adds no
    outcome of its own: it returns or throws exactly what the last invocation
    of the operation returned or threw; every earlier invocation was
    rate-limited, and the last one is rate-limited only when it was the
    [maxRetries]-th. *)
Theorem retry_outcome_is_last_attempt
    (T : Type) (fn : nat -> result T) (maxRetries : Z) :
  1 <= maxRetries ->
  exists tr,
    Retry.retryWithBackoff fn maxRetries
    = Some (fn (Nat.pred (Retry.attempts tr)), tr)
    /\ 1 <= Z.of_nat (Retry.attempts tr) <= maxRetries
    /\ (forall i, (i < Nat.pred (Retry.attempts tr))%nat ->
                  Retry.rate_limited (fn i))
    /\ (Retry.rate_limited (fn (Nat.pred (Retry.attempts tr))) ->
        Z.of_nat (Retry.attempts tr) = maxRetries).
Proof.
  intros Hmax.
  destruct (retryWithBackoff_shape fn maxRetries Hmax)
    as (k & Hrun & Hk & Hfail & Hlast).
  exists (Retry.failed_rounds k 1 ++ [Retry.Attempt]).
  rewrite attempts_failed_rounds. cbn [Retry.attempts filter Retry.event_eqb
                                       List.length].
  replace (k + 1)%nat with (S k) by lia. cbn [Nat.pred].
  repeat split; try assumption; lia.
Qed.

Lemma retry_outcome_is_last_attempt_witness :
  exists tr,
    Retry.retryWithBackoff (Examples.limited_then 1 7) 3
    = Some (Examples.limited_then 1 7 (Nat.pred (Retry.attempts tr)), tr)
    /\ 1 <= Z.of_nat (Retry.attempts tr) <= 3
    /\ (forall i, (i < Nat.pred (Retry.attempts tr))%nat ->
                  Retry.rate_limited (Examples.limited_then 1 7 i))
    /\ (Retry.rate_limited
          (Examples.limited_then 1 7 (Nat.pred (Retry.attempts tr))) ->
        Z.of_nat (Retry.attempts tr) = 3).
Proof.
  apply (retry_outcome_is_last_attempt Z (Examples.limited_then 1 7) 3). lia.
Defined.

Lemma well_spaced_failed_rounds (k : nat) :
  forall a, well_spaced (Retry.failed_rounds k a ++ [Retry.Attempt]) = true.
Proof.
  induction k as [|k IH]; intros a; [reflexivity|].
  cbn [Retry.failed_rounds app well_spaced].
  specialize (IH (a + 1)).
  destruct (Retry.failed_rounds k (a + 1) ++ [Retry.Attempt]) as [|[|d] rest]
    eqn:Hrest.
  - destruct k; discriminate Hrest.
  - exact IH.
  - destruct k; discriminate Hrest.
Qed.

(** X2: whatever the operation does, [retryWithBackoff] returns, having
    invoked it at most [max(maxRetries, 0)] times, with exactly one sleep
    between consecutive invocations and none before the first or after the
    last: its trace reads attempt, sleep, attempt, ..., attempt. *)
Theorem retry_attempts_bounded
    (T : Type) (fn : nat -> result T) (maxRetries : Z) :
  exists r tr,
    Retry.retryWithBackoff fn maxRetries = Some (r, tr)
    /\ (Retry.attempts tr <= Z.to_nat maxRetries)%nat
    /\ well_spaced tr = true
    /\ List.length (Retry.sleeps tr) = Nat.pred (Retry.attempts tr).
Proof.
  destruct (Z_le_gt_dec maxRetries 0) as [Hle|Hgt].
  - exists (Throw (Error "Max retries exceeded")), [].
    split; [|split; [cbn; lia|split; reflexivity]].
    unfold Retry.retryWithBackoff.
    replace (Z.to_nat maxRetries) with 0%nat by lia.
    cbn [Retry.retry_loop].
    replace (1 <=? maxRetries) with false by (symmetry; apply Z.leb_gt; lia).
    reflexivity.
  - destruct (retryWithBackoff_shape fn maxRetries ltac:(lia))
      as (k & Hrun & Hk & _).
    exists (fn k), (Retry.failed_rounds k 1 ++ [Retry.Attempt]).
    split; [exact Hrun|].
    rewrite attempts_failed_rounds, well_spaced_failed_rounds.
    destruct (sleeps_failed_rounds_length k 1 [Retry.Attempt]) as [-> Hlen].
    cbn [Retry.attempts filter Retry.event_eqb List.length Retry.sleeps].
    rewrite app_nil_r, Hlen. repeat split; lia.
Qed.

(** The predicate tells real interleavings from others. *)
Example well_spaced_examples :
  well_spaced [Retry.Attempt; Retry.Sleep 2000; Retry.Attempt] = true
  /\ well_spaced [Retry.Attempt; Retry.Attempt; Retry.Sleep 2000] = false
  /\ well_spaced [Retry.Attempt; Retry.Sleep 2000] = false
  /\ well_spaced [Retry.Sleep 2000; Retry.Attempt] = false.
Proof. repeat split. Qed.

(** X3: the sleeps do not depend on the operation: the [i]-th sleep of an
    execution lasts [min(1000 * 2^i, 30000)] ms; each is between 2000 and
    30000 ms, and an execution sleeps at most 30000 ms per retry in total. *)
Theorem retry_sleep_schedule
    (T : Type) (fn : nat -> result T) (maxRetries : Z) :
  exists r tr,
    Retry.retryWithBackoff fn maxRetries = Some (r, tr)
    /\ Retry.sleeps tr
       = map (fun i => Z.min (1000 * 2 ^ Z.of_nat i) 30000)
             (seq 1 (Nat.pred (Retry.attempts tr)))
    /\ Forall (fun d => 2000 <= d <= 30000) (Retry.sleeps tr)
    /\ total_sleep tr <= 30000 * Z.of_nat (Nat.pred (Retry.attempts tr)).
Proof.
  destruct (Z_le_gt_dec maxRetries 0) as [Hle|Hgt].
  - exists (Throw (Error "Max retries exceeded")), [].
    split; [|repeat split; [constructor|cbn; lia]].
    unfold Retry.retryWithBackoff.
    replace (Z.to_nat maxRetries) with 0%nat by lia.
    cbn [Retry.retry_loop].
    replace (1 <=? maxRetries) with false by (symmetry; apply Z.leb_gt; lia).
    reflexivity.
  - destruct (retryWithBackoff_shape fn maxRetries ltac:(lia))
      as (k & Hrun & Hk & _).
    exists (fn k), (Retry.failed_rounds k 1 ++ [Retry.Attempt]).
    split; [exact Hrun|].
    rewrite attempts_failed_rounds.
    cbn [Retry.attempts filter Retry.event_eqb List.length].
    replace (k + 1)%nat with (S k) by lia. cbn [Nat.pred].
    split; [exact (sleeps_failed_rounds k 1)|].
    unfold total_sleep.
    destruct (sleeps_failed_rounds_length k 1 [Retry.Attempt]) as [-> _].
    cbn [Retry.sleeps]. rewrite app_nil_r.
    exact (sleeps_failed_rounds_bounds k 1 ltac:(lia)).
Qed.

(** ** Inventory search tool: calls and payloads *)

(** X4: the tool calls its collaborators in a fixed order and no more than
    it needs: [countDocuments] always and first; the vector search only on a
    non-empty collection; [find] only after a vector search that returned no
    hit, with the filter of the query and the same limit.  No collaborator is
    called twice. *)
Theorem tool_call_discipline
    (collection : Search.Collaborators) (query : string) (n_arg : option Q) :
  let n := Search.n_or_default n_arg in
  let log := snd (Search.run_tool collection query n_arg) in
  (log = [Search.CountDocuments]
   /\ (Search.countDocuments collection = Return 0
       \/ exists e, Search.countDocuments collection = Throw e))
  \/ (log = [Search.CountDocuments; Search.SimilaritySearchWithScore query n]
      /\ (exists total,
             Search.countDocuments collection = Return total /\ total <> 0)
      /\ Search.similaritySearchWithScore collection query n <> Return [])
  \/ (log = [Search.CountDocuments; Search.SimilaritySearchWithScore query n;
             Search.Find (Search.text_filter query) n]
      /\ (exists total,
             Search.countDocuments collection = Return total /\ total <> 0)
      /\ Search.similaritySearchWithScore collection query n = Return []).
Proof.
  intros n log. subst n log.
  destruct (Search.countDocuments collection) as [total|e] eqn:Hc.
  - destruct (Z.eq_dec total 0) as [->|Hne].
    + left. rewrite (tool_empty_collection collection query n_arg Hc).
      split; [reflexivity|now left].
    + right.
      destruct (Search.similaritySearchWithScore
                  collection query (Search.n_or_default n_arg))
        as [[|h hits]|e] eqn:Hv.
      * right.
        destruct (Search.find collection (Search.text_filter query)
                              (Search.n_or_default n_arg)) as [docs|e] eqn:Hf.
        -- rewrite (tool_text_results collection query n_arg total docs
                                      Hc Hne Hv Hf).
           repeat split; eauto.
        -- rewrite (tool_text_fault collection query n_arg total e
                                    Hc Hne Hv Hf).
           repeat split; eauto.
      * left.
        rewrite (tool_vector_hits collection query n_arg total (h :: hits)
                                  Hc Hne Hv ltac:(discriminate)).
        repeat split; eauto. discriminate.
      * left.
        rewrite (tool_vector_fault collection query n_arg total e Hc Hne Hv).
        repeat split; eauto. discriminate.
  - left. rewrite (tool_count_fault collection query n_arg e Hc).
    split; [reflexivity|right; eauto].
Qed.


(** ** The lexical fallback on plain queries *)

Section LexicalExtras.

Import Literal.

Lemma prefix_ci_fold (q q' : string) :
  map Mongo.to_lower (list_ascii_of_string q)
  = map Mongo.to_lower (list_ascii_of_string q') ->
  forall s, prefix_ci q s = prefix_ci q' s.
Proof.
  revert q'. induction q as [|a q IH]; intros [|a' q'] Heq s;
    try discriminate; [reflexivity|].
  cbn [list_ascii_of_string map] in Heq. injection Heq as Ha Hq.
  cbn [prefix_ci]. destruct s as [|b s]; [reflexivity|].
  rewrite Ha, (IH q' Hq). reflexivity.
Qed.

Lemma substring_ci_fold (q q' : string) :
  map Mongo.to_lower (list_ascii_of_string q)
  = map Mongo.to_lower (list_ascii_of_string q') ->
  forall s, substring_ci q s = substring_ci q' s.
Proof.
  intros Heq s. induction s as [|b s IH]; cbn [substring_ci];
    rewrite (prefix_ci_fold q q' Heq); [reflexivity|].
  rewrite IH. reflexivity.
Qed.

Lemma doc_contains_fold (q q' : string) :
  map Mongo.to_lower (list_ascii_of_string q)
  = map Mongo.to_lower (list_ascii_of_string q') ->
  forall d, doc_contains q d = doc_contains q' d.
Proof.
  intros Heq d. unfold doc_contains, searched_fields. cbn [existsb].
  assert (Hv : forall v, value_contains q v = value_contains q' v).
  { intros [s|elems| |]; cbn [value_contains]; try reflexivity.
    - apply substring_ci_fold, Heq.
    - induction elems as [|e elems IH]; [reflexivity|].
      cbn [existsb]. rewrite IH.
      destruct e; try reflexivity.
      rewrite (substring_ci_fold q q' Heq). reflexivity. }
  repeat match goal with
         | |- context [doc_get ?f d] =>
           destruct (doc_get f d); [rewrite Hv|]
         end; reflexivity.
Qed.

Lemma firstn_filter_sound {A} (f : A -> bool) (k : nat) (l : list A) :
  (List.length (firstn k (filter f l)) <= k)%nat
  /\ (forall x, In x (firstn k (filter f l)) -> In x l /\ f x = true)
  /\ ((List.length (firstn k (filter f l)) < k)%nat ->
      forall x, In x l -> f x = true -> In x (firstn k (filter f l))).
Proof.
  split; [apply firstn_le_length|]. split.
  - intros x Hx. apply filter_In.
    rewrite <- (firstn_skipn k (filter f l)). apply in_or_app. now left.
  - intros Hlt x Hin Hf.
    rewrite firstn_all2; [now apply filter_In|].
    rewrite length_firstn in Hlt. lia.
Qed.

End LexicalExtras.

(** X6: on a collection of the model, with a query free of metacharacters
    and a positive integer limit [k], the documents of the lexical fallback
    are at most [k], each is a document of the collection that contains the
    query (case-insensitively) in one of the four fields, and when fewer
    than [k] come back no matching document was left out. *)
Theorem lexical_fallback_sound_and_complete
    (collection : Search.Collaborators) (items : list Document)
    (query : string) (n_arg : option Q) (k : nat) :
  Mongo.backed_by collection items ->
  items <> [] ->
  Search.similaritySearchWithScore collection query (Search.n_or_default n_arg)
  = Return [] ->
  Literal.plain query = true ->
  Mongo.positive_integer (Search.n_or_default n_arg) = Some k ->
  exists docs,
    fst (Search.run_tool collection query n_arg)
    = Return (Search.ResultsPayload (Search.TextResults docs) "text" query
                (Z.of_nat (List.length docs)))
    /\ (List.length docs <= k)%nat
    /\ (forall d, In d docs -> In d items /\ Literal.doc_contains query d = true)
    /\ ((List.length docs < k)%nat ->
        forall d, In d items -> Literal.doc_contains query d = true ->
                  In d docs).
Proof.
  intros [Hcount Hfind] Hne Hv Hplain Hk.
  exists (Literal.lexical_search items query k).
  split.
  - rewrite (tool_text_results collection query n_arg
               (Z.of_nat (List.length items))
               (Literal.lexical_search items query k) Hcount);
      [reflexivity| |exact Hv|].
    + destruct items; [congruence|cbn; lia].
    + apply Hfind. now apply find_plain.
  - apply firstn_filter_sound.
Qed.

Lemma lexical_fallback_sound_and_complete_witness :
  exists docs,
    fst (Search.run_tool Examples.inventory "seating" None)
    = Return (Search.ResultsPayload (Search.TextResults docs) "text" "seating"
                (Z.of_nat (List.length docs)))
    /\ (List.length docs <= 10)%nat
    /\ (forall d, In d docs ->
                  In d [Examples.sofa]
                  /\ Literal.doc_contains "seating" d = true)
    /\ ((List.length docs < 10)%nat ->
        forall d, In d [Examples.sofa] ->
                  Literal.doc_contains "seating" d = true -> In d docs).
Proof.
  apply (lexical_fallback_sound_and_complete
           Examples.inventory [Examples.sofa] "seating" None 10
           (collection_of_backed [Examples.sofa] Examples.no_hits)
           ltac:(discriminate) eq_refl eq_refl eq_refl).
Defined.

(** X7: on a collection of the model, two queries free of metacharacters
    that differ only in the case of their letters get the same answer from
    the lexical fallback, apart from the echoed query. *)
Theorem lexical_fallback_ignores_case
    (collection : Search.Collaborators) (items : list Document)
    (query query' : string) (n_arg : option Q) (k : nat) :
  Mongo.backed_by collection items ->
  items <> [] ->
  Search.similaritySearchWithScore collection query (Search.n_or_default n_arg)
  = Return [] ->
  Search.similaritySearchWithScore collection query' (Search.n_or_default n_arg)
  = Return [] ->
  Literal.plain query = true ->
  Literal.plain query' = true ->
  map Mongo.to_lower (list_ascii_of_string query)
  = map Mongo.to_lower (list_ascii_of_string query') ->
  Mongo.positive_integer (Search.n_or_default n_arg) = Some k ->
  exists docs,
    fst (Search.run_tool collection query n_arg)
    = Return (Search.ResultsPayload (Search.TextResults docs) "text" query
                (Z.of_nat (List.length docs)))
    /\ fst (Search.run_tool collection query' n_arg)
       = Return (Search.ResultsPayload (Search.TextResults docs) "text" query'
                   (Z.of_nat (List.length docs))).
Proof.
  intros [Hcount Hfind] Hne Hv Hv' Hplain Hplain' Hfold Hk.
  assert (Hnz : Z.of_nat (List.length items) <> 0)
    by (destruct items; [congruence|cbn; lia]).
  exists (Literal.lexical_search items query k). split.
  - rewrite (tool_text_results collection query n_arg _
               (Literal.lexical_search items query k) Hcount Hnz Hv);
      [reflexivity|].
    apply Hfind. now apply find_plain.
  - rewrite (tool_text_results collection query' n_arg _
               (Literal.lexical_search items query k) Hcount Hnz Hv');
      [reflexivity|].
    apply Hfind.
    replace (Literal.lexical_search items query k)
      with (Literal.lexical_search items query' k); [now apply find_plain|].
    unfold Literal.lexical_search. f_equal.
    apply filter_ext. intros d. symmetry. now apply doc_contains_fold.
Qed.

Lemma lexical_fallback_ignores_case_witness :
  exists docs,
    fst (Search.run_tool Examples.inventory "SOFA" None)
    = Return (Search.ResultsPayload (Search.TextResults docs) "text" "SOFA"
                (Z.of_nat (List.length docs)))
    /\ fst (Search.run_tool Examples.inventory "sofa" None)
       = Return (Search.ResultsPayload (Search.TextResults docs) "text" "sofa"
                   (Z.of_nat (List.length docs))).
Proof.
  apply (lexical_fallback_ignores_case
           Examples.inventory [Examples.sofa] "SOFA" "sofa" None 10
           (collection_of_backed [Examples.sofa] Examples.no_hits)
           ltac:(discriminate) eq_refl eq_refl eq_refl eq_refl eq_refl eq_refl).
Defined.

(** ** Argument schema: what is accepted and what comes out *)

(** Inversion of a successful validation. *)
Lemma parse_itemLookup_spec (v out : JsValue) :
  Schema.parse Schema.itemLookup_schema v = Some out
  <-> exists fields s q,
        v = JsObject fields
        /\ js_get "query" fields = JsString s
        /\ (js_get "n" fields = JsUndefined /\ q = 10 # 1
            \/ js_get "n" fields = JsNumber q)
        /\ out = Schema.args s (Some q).
Proof.
  split.
  - destruct v as [| | | | |fields]; try discriminate.
    cbn. destruct (js_get "query" fields) as [| | | |s|] eqn:Hq;
      try discriminate;
      destruct (js_get "n" fields) as [| | |q| |] eqn:Hn;
      try discriminate; cbn; intros [= <-].
    + exists fields, s, (10 # 1). repeat split; auto.
    + exists fields, s, q. repeat split; auto.
  - intros (fields & s & q & -> & Hq & [[Hn ->] | Hn] & ->);
      cbn; rewrite Hq, Hn; reflexivity.
Qed.

(** X8: the schema accepts exactly the objects whose [query] is a string and
    whose [n] is absent or a number; what it hands to the tool's function
    is the object [{ query, n }] with just these two keys, [n] being 10 when
    it was absent.  Anything else (not an object, [query] missing or not a
    string, [n] of another type, such as a string or [null]) is rejected. *)
Theorem schema_accepts_iff (v out : JsValue) :
  Schema.parse Schema.itemLookup_schema v = Some out
  <-> exists fields s q,
        v = JsObject fields
        /\ js_get "query" fields = JsString s
        /\ (js_get "n" fields = JsUndefined /\ q = 10 # 1
            \/ js_get "n" fields = JsNumber q)
        /\ out = Schema.args s (Some q).
Proof. exact (parse_itemLookup_spec v out). Qed.

(** X9: validation is idempotent: an accepted value comes out in a form that
    the schema accepts again and leaves unchanged, and in which [n] is
    always present, so that the default [n = 10] of the function's parameter
    list is never the one that applies after validation. *)
Theorem schema_idempotent (v out : JsValue) :
  Schema.parse Schema.itemLookup_schema v = Some out ->
  Schema.parse Schema.itemLookup_schema out = Some out
  /\ exists fields q, out = JsObject fields /\ js_get "n" fields = JsNumber q.
Proof.
  intros H. apply parse_itemLookup_spec in H
    as (fields & s & q & -> & Hq & _ & ->).
  split; [reflexivity|].
  exists [("query", JsString s); ("n", JsNumber q)], q. split; reflexivity.
Qed.

Lemma schema_idempotent_witness :
  Schema.parse Schema.itemLookup_schema (Schema.args "red sofa" (Some (10 # 1)))
  = Some (Schema.args "red sofa" (Some (10 # 1)))
  /\ exists fields q,
       Schema.args "red sofa" (Some (10 # 1)) = JsObject fields
       /\ js_get "n" fields = JsNumber q.
Proof.
  apply (schema_idempotent
           (JsObject [("query", JsString "red sofa"); ("page", JsNumber (2 # 1))])
           (Schema.args "red sofa" (Some (10 # 1)))).
  reflexivity.
Defined.

(** ** Workflow: routing, the model node and the error re-thrown *)

Section GraphExtras.

Import Graph.

Lemma last_message_none (st : State) :
  last_message st = None <-> messages st = [].
Proof.
  unfold last_message. split.
  - intros H. apply nth_error_None in H.
    destruct (messages st); [reflexivity|cbn in H; lia].
  - intros ->. reflexivity.
Qed.

Variable model : nat -> list BaseMessage -> result ModelReply.

Lemma model_call_rate_limited (state : State) (invoked i : nat) :
  Retry.rate_limited (model_call model state invoked i) ->
  exists e, model (invoked + i)%nat (messages state) = Throw e
            /\ status_is e 429 = true.
Proof.
  unfold model_call. intros (e & He & H429).
  destruct (model (invoked + i)%nat (messages state)) as [r|e'];
    [discriminate|].
  injection He as ->. eauto.
Qed.

(** One [agent] step: between one and three invocations of the model, all
    but the last rate-limited; the step's outcome is that of the last. *)
Lemma callModel_shape (state : State) (invoked : nat) :
  exists k,
    (k < 3)%nat
    /\ callModel model state invoked
       = Some (model_call model state invoked k,
               Retry.failed_rounds k 1 ++ [Retry.Attempt])
    /\ (forall i, (i < k)%nat ->
                  exists e, model (invoked + i)%nat (messages state) = Throw e
                            /\ status_is e 429 = true)
    /\ (Retry.rate_limited (model_call model state invoked k) -> k = 2%nat).
Proof.
  destruct (retryWithBackoff_shape (model_call model state invoked)
              Retry.default_maxRetries ltac:(unfold Retry.default_maxRetries; lia))
    as (k & Hrun & Hk & Hfail & Hlast).
  unfold Retry.default_maxRetries in *.
  exists k. split; [lia|]. split; [exact Hrun|]. split.
  - intros i Hi. apply model_call_rate_limited, Hfail, Hi.
  - intros Hr. specialize (Hlast Hr). lia.
Qed.

End GraphExtras.

Section RunFacts.

Import Graph.

Variable model : nat -> list BaseMessage -> result ModelReply.
Variable toolNode : list BaseMessage -> result (list BaseMessage).

Lemma last_message_update (st : State) (m : BaseMessage) :
  last_message (apply_update st [m]) = Some m.
Proof. apply last_message_app. Qed.

(** Where [agent] leads after the model has replied. *)
Lemma next_node_after_reply (st : State) (rep : ModelReply) :
  next_node agent (apply_update st [reply_message rep])
  = Return match reply_tool_calls rep with
           | Some (_ :: _) => tools
           | _ => END
           end.
Proof.
  unfold next_node. cbn [workflow]. unfold shouldContinue.
  rewrite last_message_update. cbn [tool_calls reply_message].
  destruct (reply_tool_calls rep) as [[|tc calls]|]; reflexivity.
Qed.

(** One step of the run at [agent] and at [tools], under the ceiling. *)
Lemma run_agent (fuel : nat) (st : State) (steps invoked : nat) :
  (steps < recursionLimit)%nat ->
  run model toolNode (S fuel) agent st steps invoked
  = match callModel model st invoked with
    | None => None
    | Some (Throw e, _) => Some (NodeFailed e, S steps)
    | Some (Return update, tr) =>
      match next_node agent (apply_update st update) with
      | Return nxt =>
        run model toolNode fuel nxt (apply_update st update) (S steps)
            (invoked + Retry.attempts tr)
      | Throw e => Some (NodeFailed e, S steps)
      end
    end.
Proof.
  intros Hlt. cbn [run].
  replace (recursionLimit <=? steps)%nat with false
    by (symmetry; apply Nat.leb_gt; exact Hlt).
  cbn [execute]. destruct (callModel model st invoked) as [[[update|e] tr]|];
    reflexivity.
Qed.

Lemma run_tools (fuel : nat) (st : State) (steps invoked : nat) :
  (steps < recursionLimit)%nat ->
  run model toolNode (S fuel) tools st steps invoked
  = match toolNode (messages st) with
    | Throw e => Some (NodeFailed e, S steps)
    | Return update =>
      run model toolNode fuel agent (apply_update st update) (S steps) invoked
    end.
Proof.
  intros Hlt. cbn [run].
  replace (recursionLimit <=? steps)%nat with false
    by (symmetry; apply Nat.leb_gt; exact Hlt).
  cbn [execute]. destruct (toolNode (messages st)); reflexivity.
Qed.

(** A run that completes has only appended to the state it started from, and
    ends on a reply of the model that asks for no tool. *)
Lemma run_completed (fuel : nat) :
  forall cur st steps invoked final n,
    cur <> END ->
    run model toolNode fuel cur st steps invoked = Some (Completed final, n) ->
    exists added c tcs,
      messages final = messages st ++ added
      /\ last_message final = Some (AIMessage c tcs)
      /\ (tcs = None \/ tcs = Some [])
      /\ (steps < n <= recursionLimit)%nat.
Proof.
  induction fuel as [|fuel IH]; intros cur st steps invoked final n Hcur Hrun;
    [discriminate|].
  destruct cur; [| | |congruence].
  - (* START *)
    cbn [run next_node workflow] in Hrun.
    apply IH in Hrun; [exact Hrun|discriminate].
  - (* agent *)
    destruct (Nat.ltb_spec steps recursionLimit) as [Hlt|Hge].
    2:{ cbn [run] in Hrun.
        replace (recursionLimit <=? steps)%nat with true in Hrun
          by (symmetry; apply Nat.leb_le; exact Hge).
        discriminate. }
    rewrite (run_agent fuel st steps invoked Hlt) in Hrun.
    destruct (callModel_shape model st invoked) as (k & _ & Hcall & _).
    rewrite Hcall in Hrun. unfold model_call in Hrun.
    destruct (model (invoked + k)%nat (messages st)) as [rep|e];
      [|discriminate].
    rewrite next_node_after_reply in Hrun.
    destruct (reply_tool_calls rep) as [[|tc calls]|] eqn:Htc.
    + destruct fuel; [discriminate|]. cbn [run] in Hrun.
      injection Hrun as <- <-.
      exists [reply_message rep], (reply_content rep), (Some []).
      repeat split; auto; try lia.
      rewrite last_message_update. unfold reply_message. now rewrite Htc.
    + apply IH in Hrun as (added & c & tcs & Hmsgs & Hlast & Htcs & Hn);
        [|discriminate].
      exists (reply_message rep :: added), c, tcs.
      repeat split; auto; try lia.
      rewrite Hmsgs. cbn [apply_update messages reducer].
      rewrite <- app_assoc. reflexivity.
    + destruct fuel; [discriminate|]. cbn [run] in Hrun.
      injection Hrun as <- <-.
      exists [reply_message rep], (reply_content rep), None.
      repeat split; auto; try lia.
      rewrite last_message_update. unfold reply_message. now rewrite Htc.
  - (* tools *)
    destruct (Nat.ltb_spec steps recursionLimit) as [Hlt|Hge].
    2:{ cbn [run] in Hrun.
        replace (recursionLimit <=? steps)%nat with true in Hrun
          by (symmetry; apply Nat.leb_le; exact Hge).
        discriminate. }
    rewrite (run_tools fuel st steps invoked Hlt) in Hrun.
    destruct (toolNode (messages st)) as [update|e]; [|discriminate].
    apply IH in Hrun as (added & c & tcs & Hmsgs & Hlast & Htcs & Hn);
      [|discriminate].
    exists (update ++ added), c, tcs.
    repeat split; auto; try lia.
    rewrite Hmsgs. cbn [apply_update messages reducer].
    rewrite <- app_assoc. reflexivity.
Qed.

(** The model's invocation number [invoked] answers: the step takes one
    invocation. *)
Lemma callModel_first_try (st : State) (invoked : nat) (rep : ModelReply) :
  model invoked (messages st) = Return rep ->
  callModel model st invoked
  = Some (Return [reply_message rep], [Retry.Attempt]).
Proof.
  intros Hrep. unfold callModel.
  apply (retry_then_success _ Retry.default_maxRetries 0).
  - unfold Retry.default_maxRetries. lia.
  - intros i Hi. lia.
  - rewrite Nat.add_0_r, Hrep. reflexivity.
Qed.

(** It fails, and not for a rate limit: no retry. *)
Lemma callModel_other_fault (st : State) (invoked : nat) (e : JsError) :
  model invoked (messages st) = Throw e ->
  status_is e 429 = false ->
  callModel model st invoked = Some (Throw e, [Retry.Attempt]).
Proof.
  intros Herr H429. unfold callModel.
  apply (retry_then_failure _ Retry.default_maxRetries 0).
  - unfold Retry.default_maxRetries. lia.
  - intros i Hi. lia.
  - rewrite Nat.add_0_r, Herr. reflexivity.
  - now left.
Qed.

(** Three rate-limit faults in a row: the third is thrown. *)
Lemma callModel_exhausted (st : State) (invoked : nat) (e : JsError) :
  (forall i, (i < 2)%nat ->
             exists e', model (invoked + i)%nat (messages st) = Throw e'
                        /\ status_is e' 429 = true) ->
  model (invoked + 2)%nat (messages st) = Throw e ->
  status_is e 429 = true ->
  callModel model st invoked
  = Some (Throw e, Retry.failed_rounds 2 1 ++ [Retry.Attempt]).
Proof.
  intros Hfail Herr H429. unfold callModel.
  apply (retry_then_failure _ Retry.default_maxRetries 2).
  - unfold Retry.default_maxRetries. lia.
  - intros i Hi. destruct (Hfail i Hi) as (e' & He' & H').
    exists e'. rewrite He'. now split.
  - rewrite Herr. reflexivity.
  - right. reflexivity.
Qed.

End RunFacts.

(** X10: [shouldContinue] throws exactly on a state without messages; on
    every other state it returns "tools" or "__end__", both names of nodes
    of the graph. *)
Theorem shouldContinue_throws_iff_empty (st : Graph.State) :
  ((exists e, Graph.shouldContinue st = Throw e) <-> Graph.messages st = [])
  /\ (Graph.messages st <> [] ->
      Graph.shouldContinue st = Return "tools"
      \/ Graph.shouldContinue st = Return "__end__").
Proof.
  split; [split|].
  - intros (e & He). apply last_message_none. unfold Graph.shouldContinue in He.
    destruct (Graph.last_message st) as [m|]; [|reflexivity].
    destruct (Graph.tool_calls m) as [calls|]; [|discriminate].
    destruct (List.length calls =? 0)%nat; discriminate.
  - intros Hempty. apply last_message_none in Hempty.
    unfold Graph.shouldContinue. rewrite Hempty. eauto.
  - intros Hne. unfold Graph.shouldContinue.
    destruct (Graph.last_message st) as [m|] eqn:Hlast.
    + destruct (Graph.tool_calls m) as [calls|]; [|now right].
      destruct (List.length calls =? 0)%nat; [now right|now left].
    + apply last_message_none in Hlast. contradiction.
Qed.

(** X11: the error re-thrown by the [catch] of [callAgent] is a plain
    [Error] without [status]; its message is the rate-limit text exactly
    when the caught error has status 429, the authentication text exactly
    when it has status 401, and "Agent failed: " followed by the caught
    message otherwise. *)
Theorem rethrown_classification (e : JsError) :
  status (Graph.rethrown e) = None
  /\ err_name (Graph.rethrown e) = "Error"
  /\ (message (Graph.rethrown e) = rate_limit_text <-> status_is e 429 = true)
  /\ (message (Graph.rethrown e) = auth_text <-> status_is e 401 = true)
  /\ (status_is e 429 = false -> status_is e 401 = false ->
      message (Graph.rethrown e) = String.append "Agent failed: " (message e)).
Proof.
  unfold Graph.rethrown, status_is.
  destruct (status e) as [s|].
  - destruct (s =? 429) eqn:H429; [apply Z.eqb_eq in H429; subst s|];
      [|destruct (s =? 401) eqn:H401];
      cbn; repeat split; intros; try reflexivity; try discriminate.
  - cbn. repeat split; intros; try reflexivity; try discriminate.
Qed.

(** X12: one execution of the [agent] node invokes the model at least once
    and at most three times, every invocation but the last having been
    rate-limited; it sleeps at most 6000 ms in all; and it yields exactly
    one AI message, the reply to the last invocation, or throws the error of
    the last invocation. *)
Theorem callModel_invocations
    (model : nat -> list Graph.BaseMessage -> result Graph.ModelReply)
    (state : Graph.State) (invoked : nat) :
  exists k tr,
    (k < 3)%nat
    /\ Graph.callModel model state invoked
       = Some (match model (invoked + k)%nat (Graph.messages state) with
               | Return rep => Return [Graph.reply_message rep]
               | Throw e => Throw e
               end, tr)
    /\ Retry.attempts tr = S k
    /\ total_sleep tr <= 6000
    /\ (forall i, (i < k)%nat ->
                  exists e,
                    model (invoked + i)%nat (Graph.messages state) = Throw e
                    /\ status_is e 429 = true).
Proof.
  destruct (callModel_shape model state invoked) as (k & Hk & Hcall & Hfail & _).
  exists k, (Retry.failed_rounds k 1 ++ [Retry.Attempt]).
  split; [exact Hk|]. split; [exact Hcall|]. split; [|split; [|exact Hfail]].
  - rewrite attempts_failed_rounds. cbn. lia.
  - destruct k as [|[|[|k]]]; try lia; vm_compute; discriminate.
Qed.

(** X13: when [callAgent] returns, what it returns is the content of the
    last message of the final state, and that message is a reply of the
    model that asks for no tool; the turn took at least one and at most 15
    node executions. *)
Theorem callAgent_returns_final_reply
    (model : nat -> list Graph.BaseMessage -> result Graph.ModelReply)
    (toolNode : list Graph.BaseMessage -> result (list Graph.BaseMessage))
    (checkpoint : Graph.State) (query recursion_msg response : string)
    (fuel n : nat) :
  Graph.callAgent fuel recursion_msg model toolNode checkpoint query
  = Some (Return response, n) ->
  exists final tcs,
    Graph.invoke model toolNode fuel checkpoint [Graph.HumanMessage query]
    = Some (Graph.Completed final, n)
    /\ Graph.last_message final = Some (Graph.AIMessage response tcs)
    /\ (tcs = None \/ tcs = Some [])
    /\ (1 <= n <= 15)%nat.
Proof.
  unfold Graph.callAgent. intros H.
  destruct (Graph.invoke model toolNode fuel checkpoint
                         [Graph.HumanMessage query])
    as [[[final|e|] steps]|] eqn:Hinv; try discriminate.
  unfold Graph.invoke in Hinv.
  destruct (run_completed model toolNode fuel Graph.START _ 0 0 final steps
                          ltac:(discriminate) Hinv)
    as (added & c & tcs & _ & Hlast & Htcs & Hn).
  rewrite Hlast in H. cbn in H. injection H as <- <-.
  unfold Graph.recursionLimit in Hn.
  exists final, tcs. repeat split; auto; lia.
Qed.

Lemma callAgent_returns_final_reply_witness :
  exists final tcs,
    Graph.invoke Scenarios.tool_then_answer Examples.echo_tools 17
                 Scenarios.new_thread [Graph.HumanMessage "red sofa?"]
    = Some (Graph.Completed final, 3%nat)
    /\ Graph.last_message final
       = Some (Graph.AIMessage "We have one red sofa." tcs)
    /\ (tcs = None \/ tcs = Some [])
    /\ (1 <= 3 <= 15)%nat.
Proof.
  apply (callAgent_returns_final_reply
           Scenarios.tool_then_answer Examples.echo_tools Scenarios.new_thread
           "red sofa?" "Recursion limit reached" "We have one red sofa."
           17 3).
  reflexivity.
Defined.

(** X14: a turn that completes only appends: the final state is the state
    loaded for the thread, then the new human message, then what the nodes
    added, in that order; no earlier message is dropped or changed. *)
Theorem completed_turn_appends
    (model : nat -> list Graph.BaseMessage -> result Graph.ModelReply)
    (toolNode : list Graph.BaseMessage -> result (list Graph.BaseMessage))
    (checkpoint final : Graph.State) (query : string) (fuel n : nat) :
  Graph.invoke model toolNode fuel checkpoint [Graph.HumanMessage query]
  = Some (Graph.Completed final, n) ->
  exists added,
    Graph.messages final
    = Graph.messages checkpoint ++ [Graph.HumanMessage query] ++ added
    /\ added <> [].
Proof.
  unfold Graph.invoke. intros Hinv.
  destruct (run_completed model toolNode fuel Graph.START _ 0 0 final n
                          ltac:(discriminate) Hinv)
    as (added & c & tcs & Hmsgs & Hlast & _ & _).
  exists added. split.
  - rewrite Hmsgs. cbn [Graph.apply_update Graph.messages Graph.reducer].
    rewrite <- app_assoc. reflexivity.
  - intros ->. rewrite app_nil_r in Hmsgs.
    unfold Graph.last_message in Hlast. rewrite Hmsgs in Hlast.
    cbn [Graph.apply_update Graph.messages Graph.reducer] in Hlast.
    rewrite length_app in Hlast. cbn [List.length] in Hlast.
    rewrite nth_error_app2 in Hlast by lia.
    replace (List.length (Graph.messages checkpoint) + 1 - 1
             - List.length (Graph.messages checkpoint))%nat
      with 0%nat in Hlast by lia.
    discriminate Hlast.
Qed.

Lemma completed_turn_appends_witness :
  exists added,
    [Graph.HumanMessage "hi"; Graph.AIMessage "Hello" None;
     Graph.HumanMessage "red sofa?"; Graph.AIMessage "Hello" None]
    = [Graph.HumanMessage "hi"; Graph.AIMessage "Hello" None]
        ++ [Graph.HumanMessage "red sofa?"] ++ added
    /\ added <> [].
Proof.
  apply (completed_turn_appends
           Examples.direct_model Examples.echo_tools
           {| Graph.messages := [Graph.HumanMessage "hi";
                                 Graph.AIMessage "Hello" None] |}
           {| Graph.messages := [Graph.HumanMessage "hi";
                                 Graph.AIMessage "Hello" None;
                                 Graph.HumanMessage "red sofa?";
                                 Graph.AIMessage "Hello" None] |}
           "red sofa?" 17 1).
  reflexivity.
Defined.

(** ** Whole turns *)

Section Turns.

Import Graph.

Variable model : nat -> list BaseMessage -> result ModelReply.
Variable toolNode : list BaseMessage -> result (list BaseMessage).
Variable checkpoint : State.
Variable query recursion_msg : string.

Let prompt : list BaseMessage := messages checkpoint ++ [HumanMessage query].
Let entry : State := apply_update checkpoint [HumanMessage query].

(** The run up to the first execution of [agent]. *)
Lemma invoke_first_step (fuel : nat) :
  invoke model toolNode (S (S fuel)) checkpoint [HumanMessage query]
  = match callModel model entry 0 with
    | None => None
    | Some (Throw e, _) => Some (NodeFailed e, 1%nat)
    | Some (Return update, tr) =>
      match next_node agent (apply_update entry update) with
      | Return nxt =>
        run model toolNode fuel nxt (apply_update entry update) 1
            (Retry.attempts tr)
      | Throw e => Some (NodeFailed e, 1%nat)
      end
    end.
Proof.
  unfold invoke. fold entry.
  change (run model toolNode (S (S fuel)) START entry 0 0)
    with (run model toolNode (S fuel) agent entry 0 0).
  rewrite run_agent by (unfold recursionLimit; lia). reflexivity.
Qed.

Lemma turn_direct_answer (fuel : nat) (rep : ModelReply) :
  (3 <= fuel)%nat ->
  model 0%nat prompt = Return rep ->
  reply_tool_calls rep = None \/ reply_tool_calls rep = Some [] ->
  callAgent fuel recursion_msg model toolNode checkpoint query
  = Some (Return (reply_content rep), 1%nat).
Proof.
  intros Hfuel Hrep Hno. destruct fuel as [|[|[|fuel]]]; try lia.
  unfold callAgent. rewrite invoke_first_step.
  rewrite (callModel_first_try model entry 0 rep Hrep).
  rewrite next_node_after_reply.
  destruct Hno as [Hno|Hno]; rewrite Hno; cbn [run];
    rewrite last_message_update; reflexivity.
Qed.

Lemma turn_model_fault (fuel : nat) (e : JsError) :
  (2 <= fuel)%nat ->
  model 0%nat prompt = Throw e ->
  status_is e 429 = false ->
  callAgent fuel recursion_msg model toolNode checkpoint query
  = Some (Throw (rethrown e), 1%nat).
Proof.
  intros Hfuel Herr H429. destruct fuel as [|[|fuel]]; try lia.
  unfold callAgent. rewrite invoke_first_step.
  rewrite (callModel_other_fault model entry 0 e Herr H429). reflexivity.
Qed.

Lemma turn_rate_limited (fuel : nat) :
  (2 <= fuel)%nat ->
  (forall i, (i < 3)%nat ->
             exists e, model i prompt = Throw e /\ status_is e 429 = true) ->
  callAgent fuel recursion_msg model toolNode checkpoint query
  = Some (Throw (Error rate_limit_text), 1%nat).
Proof.
  intros Hfuel Hfail. destruct fuel as [|[|fuel]]; try lia.
  destruct (Hfail 2%nat ltac:(lia)) as (e & He & H429).
  unfold callAgent. rewrite invoke_first_step.
  rewrite (callModel_exhausted model entry 0 e); try assumption.
  - unfold rethrown. rewrite H429. reflexivity.
  - intros i Hi. apply Hfail. lia.
Qed.

Lemma turn_one_tool_round (fuel : nat) (ask answer : ModelReply)
    (tc : ToolCall) (tcs : list ToolCall) (results : list BaseMessage) :
  (5 <= fuel)%nat ->
  model 0%nat prompt = Return ask ->
  reply_tool_calls ask = Some (tc :: tcs) ->
  toolNode (prompt ++ [reply_message ask]) = Return results ->
  model 1%nat (prompt ++ [reply_message ask] ++ results) = Return answer ->
  reply_tool_calls answer = None \/ reply_tool_calls answer = Some [] ->
  invoke model toolNode fuel checkpoint [HumanMessage query]
  = Some (Completed
            {| messages :=
                 prompt ++ [reply_message ask] ++ results
                        ++ [reply_message answer] |}, 3%nat)
  /\ callAgent fuel recursion_msg model toolNode checkpoint query
     = Some (Return (reply_content answer), 3%nat).
Proof.
  intros Hfuel Hask Hcalls Htools Hanswer Hno.
  destruct fuel as [|[|[|[|[|fuel]]]]]; try lia.
  assert (Hinv :
    invoke model toolNode (S (S (S (S (S fuel))))) checkpoint
           [HumanMessage query]
    = Some (Completed
              {| messages :=
                   prompt ++ [reply_message ask] ++ results
                          ++ [reply_message answer] |}, 3%nat)).
  { rewrite app_assoc in Hanswer.
    rewrite invoke_first_step.
    rewrite (callModel_first_try model entry 0 ask Hask).
    rewrite next_node_after_reply, Hcalls.
    rewrite run_tools by (unfold recursionLimit; lia).
    unfold entry, apply_update, reducer; cbn [messages]. fold prompt.
    rewrite Htools.
    rewrite run_agent by (unfold recursionLimit; lia).
    change (Retry.attempts [Retry.Attempt]) with 1%nat. cbn [Nat.add].
    rewrite (callModel_first_try
               model {| messages := (prompt ++ [reply_message ask]) ++ results |}
               1 answer Hanswer).
    rewrite next_node_after_reply.
    destruct Hno as [Hno|Hno]; rewrite Hno; cbn [run];
      unfold apply_update, reducer; cbn [messages];
      rewrite <- !app_assoc; reflexivity. }
  split; [exact Hinv|].
  unfold callAgent. rewrite Hinv.
  replace (prompt ++ [reply_message ask] ++ results ++ [reply_message answer])
    with ((prompt ++ [reply_message ask] ++ results) ++ [reply_message answer])
    by (rewrite <- !app_assoc; reflexivity).
  rewrite last_message_app. reflexivity.
Qed.

End Turns.

(** X15: when the model's first reply to the prompt (the thread's messages
    followed by the new human message) asks for no tool, the turn takes one
    node execution and [callAgent] returns the content of that reply,
    whatever the tool node would have done. *)
Theorem direct_answer_skips_tools
    (model : nat -> list Graph.BaseMessage -> result Graph.ModelReply)
    (toolNode : list Graph.BaseMessage -> result (list Graph.BaseMessage))
    (checkpoint : Graph.State) (query recursion_msg : string)
    (fuel : nat) (rep : Graph.ModelReply) :
  (3 <= fuel)%nat ->
  model 0%nat (Graph.messages checkpoint ++ [Graph.HumanMessage query])
  = Return rep ->
  Graph.reply_tool_calls rep = None \/ Graph.reply_tool_calls rep = Some [] ->
  Graph.callAgent fuel recursion_msg model toolNode checkpoint query
  = Some (Return (Graph.reply_content rep), 1%nat).
Proof. apply turn_direct_answer. Qed.

Lemma direct_answer_skips_tools_witness :
  Graph.callAgent 17 "Recursion limit reached" Examples.direct_model
                  Examples.echo_tools Scenarios.new_thread "hi"
  = Some (Return "Hello", 1%nat).
Proof.
  apply (direct_answer_skips_tools
           Examples.direct_model Examples.echo_tools Scenarios.new_thread
           "hi" "Recursion limit reached" 17 (Graph.mkReply "Hello" None)).
  - lia.
  - reflexivity.
  - left. reflexivity.
Defined.

(** X16: a fault of the model's first invocation that is not a rate limit
    ends the turn at once: the model is invoked once, no sleep is taken, and
    [callAgent] throws the re-thrown form of that fault; for status 401 this
    is the error "Authentication failed. Please check your API
    configuration.". *)
Theorem model_fault_not_retried
    (model : nat -> list Graph.BaseMessage -> result Graph.ModelReply)
    (toolNode : list Graph.BaseMessage -> result (list Graph.BaseMessage))
    (checkpoint : Graph.State) (query recursion_msg : string)
    (fuel : nat) (e : JsError) :
  (2 <= fuel)%nat ->
  model 0%nat (Graph.messages checkpoint ++ [Graph.HumanMessage query])
  = Throw e ->
  status_is e 429 = false ->
  Graph.callModel model
    (Graph.apply_update checkpoint [Graph.HumanMessage query]) 0
  = Some (Throw e, [Retry.Attempt])
  /\ Graph.callAgent fuel recursion_msg model toolNode checkpoint query
     = Some (Throw (Graph.rethrown e), 1%nat)
  /\ (status_is e 401 = true -> Graph.rethrown e = Error auth_text).
Proof.
  intros Hfuel Herr H429. split; [|split].
  - now apply callModel_other_fault.
  - now apply turn_model_fault.
  - intros H401. unfold Graph.rethrown. rewrite H429, H401. reflexivity.
Qed.

Lemma model_fault_not_retried_witness :
  Graph.callModel Scenarios.unauthorized_model
    (Graph.apply_update Scenarios.new_thread [Graph.HumanMessage "hi"]) 0
  = Some (Throw Examples.unauthorized, [Retry.Attempt])
  /\ Graph.callAgent 17 "Recursion limit reached" Scenarios.unauthorized_model
                     Examples.echo_tools Scenarios.new_thread "hi"
     = Some (Throw (Graph.rethrown Examples.unauthorized), 1%nat)
  /\ (status_is Examples.unauthorized 401 = true ->
      Graph.rethrown Examples.unauthorized = Error auth_text).
Proof.
  apply (model_fault_not_retried
           Scenarios.unauthorized_model Examples.echo_tools
           Scenarios.new_thread "hi" "Recursion limit reached" 17
           Examples.unauthorized).
  - lia.
  - reflexivity.
  - reflexivity.
Defined.

(** X17: when the model's first three invocations are rate-limited, the
    [agent] node gives up after the third (having slept 2000 then 4000 ms)
    and [callAgent] throws the error "Service temporarily unavailable due to
    rate limits. Please try again in a minute." after one node execution. *)
Theorem rate_limit_surfaces_after_three
    (model : nat -> list Graph.BaseMessage -> result Graph.ModelReply)
    (toolNode : list Graph.BaseMessage -> result (list Graph.BaseMessage))
    (checkpoint : Graph.State) (query recursion_msg : string) (fuel : nat) :
  (2 <= fuel)%nat ->
  (forall i, (i < 3)%nat ->
     exists e,
       model i (Graph.messages checkpoint ++ [Graph.HumanMessage query])
       = Throw e
       /\ status_is e 429 = true) ->
  (exists e,
      Graph.callModel model
        (Graph.apply_update checkpoint [Graph.HumanMessage query]) 0
      = Some (Throw e,
              [Retry.Attempt; Retry.Sleep 2000; Retry.Attempt;
               Retry.Sleep 4000; Retry.Attempt]))
  /\ Graph.callAgent fuel recursion_msg model toolNode checkpoint query
     = Some (Throw (Error rate_limit_text), 1%nat).
Proof.
  intros Hfuel Hfail. split; [|now apply turn_rate_limited].
  destruct (Hfail 2%nat ltac:(lia)) as (e & He & H429).
  exists e.
  apply (callModel_exhausted model _ 0 e); try assumption.
  intros i Hi. apply Hfail. lia.
Qed.

Lemma rate_limit_surfaces_after_three_witness :
  (exists e,
      Graph.callModel Scenarios.limited_model
        (Graph.apply_update Scenarios.new_thread [Graph.HumanMessage "hi"]) 0
      = Some (Throw e,
              [Retry.Attempt; Retry.Sleep 2000; Retry.Attempt;
               Retry.Sleep 4000; Retry.Attempt]))
  /\ Graph.callAgent 17 "Recursion limit reached" Scenarios.limited_model
                     Examples.echo_tools Scenarios.new_thread "hi"
     = Some (Throw (Error rate_limit_text), 1%nat).
Proof.
  apply (rate_limit_surfaces_after_three
           Scenarios.limited_model Examples.echo_tools Scenarios.new_thread
           "hi" "Recursion limit reached" 17).
  - lia.
  - intros i _. exists Examples.too_many_requests. split; reflexivity.
Defined.

(** X18: one tool round.  When the model first asks for at least one tool,
    the tool node answers with [results], and the model's next reply asks
    for nothing, the turn takes three node executions, the final state is
    the prompt followed by the request, the tool results and the answer in
    that order, and [callAgent] returns the content of the answer. *)
Theorem one_tool_round
    (model : nat -> list Graph.BaseMessage -> result Graph.ModelReply)
    (toolNode : list Graph.BaseMessage -> result (list Graph.BaseMessage))
    (checkpoint : Graph.State) (query recursion_msg : string) (fuel : nat)
    (ask answer : Graph.ModelReply)
    (tc : Graph.ToolCall) (tcs : list Graph.ToolCall)
    (results : list Graph.BaseMessage) :
  (5 <= fuel)%nat ->
  model 0%nat (Graph.messages checkpoint ++ [Graph.HumanMessage query])
  = Return ask ->
  Graph.reply_tool_calls ask = Some (tc :: tcs) ->
  toolNode ((Graph.messages checkpoint ++ [Graph.HumanMessage query])
              ++ [Graph.reply_message ask])
  = Return results ->
  model 1%nat ((Graph.messages checkpoint ++ [Graph.HumanMessage query])
                 ++ [Graph.reply_message ask] ++ results)
  = Return answer ->
  Graph.reply_tool_calls answer = None
  \/ Graph.reply_tool_calls answer = Some [] ->
  Graph.invoke model toolNode fuel checkpoint [Graph.HumanMessage query]
  = Some (Graph.Completed
            {| Graph.messages :=
                 (Graph.messages checkpoint ++ [Graph.HumanMessage query])
                   ++ [Graph.reply_message ask] ++ results
                   ++ [Graph.reply_message answer] |}, 3%nat)
  /\ Graph.callAgent fuel recursion_msg model toolNode checkpoint query
     = Some (Return (Graph.reply_content answer), 3%nat).
Proof. apply turn_one_tool_round. Qed.

Lemma one_tool_round_witness :
  Graph.invoke Scenarios.tool_then_answer Examples.echo_tools 17
               Scenarios.new_thread [Graph.HumanMessage "red sofa?"]
  = Some (Graph.Completed
            {| Graph.messages :=
                 [Graph.HumanMessage "red sofa?";
                  Graph.AIMessage "" (Some [Examples.lookup_call]);
                  Graph.ToolMessage "{}" "call_1";
                  Graph.AIMessage "We have one red sofa." None] |}, 3%nat)
  /\ Graph.callAgent 17 "Recursion limit reached" Scenarios.tool_then_answer
                     Examples.echo_tools Scenarios.new_thread "red sofa?"
     = Some (Return "We have one red sofa.", 3%nat).
Proof.
  apply (one_tool_round
           Scenarios.tool_then_answer Examples.echo_tools Scenarios.new_thread
           "red sofa?" "Recursion limit reached" 17
           (Graph.mkReply "" (Some [Examples.lookup_call]))
           (Graph.mkReply "We have one red sofa." None)
           Examples.lookup_call [] [Graph.ToolMessage "{}" "call_1"]).
  - lia.
  - reflexivity.
  - reflexivity.
  - reflexivity.
  - reflexivity.
  - left. reflexivity.
Defined.

(** ** The HTTP endpoints *)

Section ServerFacts.

Import Graph.

Variable recursion_msg : string.
Variable model : nat -> list BaseMessage -> result ModelReply.
Variable toolNode : list BaseMessage -> result (list BaseMessage).
Variable load : string -> State.

(** With the fuel for the whole ceiling, the run returns. *)
Lemma invoke_total (fuel : nat) (checkpoint : State) (input : list BaseMessage) :
  (recursionLimit + 2 <= fuel)%nat ->
  exists out n, invoke model toolNode fuel checkpoint input = Some (out, n).
Proof.
  intros Hfuel. destruct fuel as [|fuel]; [lia|].
  unfold invoke.
  change (run model toolNode (S fuel) START (apply_update checkpoint input) 0 0)
    with (run model toolNode fuel agent (apply_update checkpoint input) 0 0).
  destruct (run_within_limit model toolNode fuel agent
              (apply_update checkpoint input) 0 0)
    as (out & n & Hrun & _); [discriminate|lia|lia|].
  eauto.
Qed.

(** What [callAgent] returns or throws, by the outcome of the run. *)
Lemma callAgent_outcome (fuel : nat) (checkpoint : State) (query : string) :
  (recursionLimit + 2 <= fuel)%nat ->
  exists out n,
    invoke model toolNode fuel checkpoint [HumanMessage query] = Some (out, n)
    /\ match out with
       | Completed final =>
         exists s tcs,
           last_message final = Some (AIMessage s tcs)
           /\ callAgent fuel recursion_msg model toolNode checkpoint query
              = Some (Return s, n)
       | NodeFailed e =>
         callAgent fuel recursion_msg model toolNode checkpoint query
         = Some (Throw (rethrown e), n)
       | RecursionLimitExceeded =>
         callAgent fuel recursion_msg model toolNode checkpoint query
         = Some (Throw (rethrown (GraphRecursionError recursion_msg)), n)
       end.
Proof.
  intros Hfuel.
  destruct (invoke_total fuel checkpoint [HumanMessage query] Hfuel)
    as (out & n & Hinv).
  exists out, n. split; [exact Hinv|].
  unfold callAgent. rewrite Hinv.
  destruct out as [final|e|]; try reflexivity.
  unfold invoke in Hinv.
  destruct (run_completed model toolNode fuel START _ 0 0 final n
                          ltac:(discriminate) Hinv)
    as (_ & s & tcs & _ & Hlast & _ & _).
  exists s, tcs. rewrite Hlast. split; reflexivity.
Qed.

(** What [callAgent] hands to an endpoint, by the outcome of the run. *)
Lemma agent_of_outcome (query thread_id : string) :
  exists out n,
    invoke model toolNode (recursionLimit + 2) (load thread_id)
           [HumanMessage query] = Some (out, n)
    /\ match out with
       | Completed final =>
         exists s tcs,
           last_message final = Some (AIMessage s tcs)
           /\ Server.agent_of recursion_msg model toolNode load query thread_id
              = Return s
       | NodeFailed e =>
         Server.agent_of recursion_msg model toolNode load query thread_id
         = Throw (rethrown e)
       | RecursionLimitExceeded =>
         Server.agent_of recursion_msg model toolNode load query thread_id
         = Throw (rethrown (GraphRecursionError recursion_msg))
       end.
Proof.
  destruct (callAgent_outcome (recursionLimit + 2) (load thread_id) query
                              (Nat.le_refl _))
    as (out & n & Hinv & Hout).
  exists out, n. split; [exact Hinv|].
  unfold Server.agent_of.
  destruct out as [final|e|].
  - destruct Hout as (s & tcs & Hlast & Hcall).
    exists s, tcs. split; [exact Hlast|]. now rewrite Hcall.
  - now rewrite Hout.
  - now rewrite Hout.
Qed.

End ServerFacts.

(** X19: both POST endpoints answer with status 200 exactly when the turn
    completed, and the body then carries the content of the model's final
    reply (with the minted thread identifier on [/chat], and nothing else on
    [/chat/:threadId]); when a node failed or the step ceiling was hit they
    answer 500 with the fixed body [{ error: "Internal server error" }], in
    which nothing of the error appears. *)
Theorem endpoints_answer_by_outcome
    (recursion_msg : string)
    (model : nat -> list Graph.BaseMessage -> result Graph.ModelReply)
    (toolNode : list Graph.BaseMessage -> result (list Graph.BaseMessage))
    (load : string -> Graph.State)
    (thread_id message : string) :
  let agent := Server.agent_of recursion_msg model toolNode load in
  exists out n,
    Graph.invoke model toolNode (Graph.recursionLimit + 2) (load thread_id)
                 [Graph.HumanMessage message] = Some (out, n)
    /\ match out with
       | Graph.Completed final =>
         exists s tcs,
           Graph.last_message final = Some (Graph.AIMessage s tcs)
           /\ Server.post_chat_thread agent thread_id message
              = Server.json (JsObject [("response", JsString s)])
           /\ forall now,
                Server.thread_of_time now = thread_id ->
                Server.post_chat agent now message
                = Server.json (JsObject [("threadId", JsString thread_id);
                                         ("response", JsString s)])
       | _ =>
         Server.post_chat_thread agent thread_id message
         = Server.status_json 500
             (JsObject [("error", JsString "Internal server error")])
         /\ forall now,
              Server.thread_of_time now = thread_id ->
              Server.post_chat agent now message
              = Server.status_json 500
                  (JsObject [("error", JsString "Internal server error")])
       end.
Proof.
  intros agent. subst agent.
  destruct (agent_of_outcome recursion_msg model toolNode load message thread_id)
    as (out & n & Hinv & Hout).
  exists out, n. split; [exact Hinv|].
  destruct out as [final|e|].
  - destruct Hout as (s & tcs & Hlast & Hagent).
    exists s, tcs. split; [exact Hlast|]. split.
    + unfold Server.post_chat_thread. rewrite Hagent. reflexivity.
    + intros now <-. unfold Server.post_chat. rewrite Hagent. reflexivity.
  - split.
    + unfold Server.post_chat_thread. rewrite Hout. reflexivity.
    + intros now <-. unfold Server.post_chat. rewrite Hout. reflexivity.
  - split.
    + unfold Server.post_chat_thread. rewrite Hout. reflexivity.
    + intros now <-. unfold Server.post_chat. rewrite Hout. reflexivity.
Qed.

(** X20: the thread identifier minted by [/chat] is the decimal notation of
    the clock, so two conversations get the same identifier exactly when
    they are started in the same millisecond. *)
Theorem thread_of_time_injective (a b : Z) :
  Server.thread_of_time a = Server.thread_of_time b <-> a = b.
Proof.
  split; [|now intros ->].
  unfold Server.thread_of_time. intros H.
  apply DecimalZ.to_int_inj.
  assert (Hs : Some (Z.to_int a) = Some (Z.to_int b))
    by (rewrite <- !NilEmpty.isi, H; reflexivity).
  now injection Hs.
Qed.

Example thread_of_time_example :
  Server.thread_of_time 1730592000000 = "1730592000000".
Proof. reflexivity. Qed.

(** ** What [callAgent] throws *)

Lemma rethrown_plain (e : JsError) :
  status (Graph.rethrown e) = None /\ err_name (Graph.rethrown e) = "Error".
Proof.
  unfold Graph.rethrown.
  destruct (status_is e 429); [split; reflexivity|].
  destruct (status_is e 401); split; reflexivity.
Qed.

(** X21: whatever makes a turn fail, the error [callAgent] throws is a plain
    [Error] with no [status]: the status of the original fault (429, 401 or
    any other) is not passed on to the caller, only one of the three
    messages is. *)
Theorem callAgent_throws_plain_error
    (model : nat -> list Graph.BaseMessage -> result Graph.ModelReply)
    (toolNode : list Graph.BaseMessage -> result (list Graph.BaseMessage))
    (checkpoint : Graph.State) (query recursion_msg : string)
    (fuel n : nat) (e : JsError) :
  Graph.callAgent fuel recursion_msg model toolNode checkpoint query
  = Some (Throw e, n) ->
  status e = None
  /\ err_name e = "Error"
  /\ (message e = rate_limit_text
      \/ message e = auth_text
      \/ exists m, message e = String.append "Agent failed: " m).
Proof.
  unfold Graph.callAgent. intros H.
  assert (Hre : exists e0, e = Graph.rethrown e0).
  { destruct (Graph.invoke model toolNode fuel checkpoint
                           [Graph.HumanMessage query])
      as [[[final|e0|] steps]|]; try discriminate.
    - destruct (Graph.last_message final); [discriminate|].
      injection H as <- _. eauto.
    - injection H as <- _. eauto.
    - injection H as <- _. eauto. }
  destruct Hre as (e0 & ->).
  destruct (rethrown_plain e0) as [Hs Hn]. split; [exact Hs|]. split; [exact Hn|].
  unfold Graph.rethrown.
  destruct (status_is e0 429); [now left|].
  destruct (status_is e0 401); [right; now left|].
  right; right. cbn [message Error]. eauto.
Qed.

Lemma callAgent_throws_plain_error_witness :
  status (Graph.rethrown Examples.unauthorized) = None
  /\ err_name (Graph.rethrown Examples.unauthorized) = "Error"
  /\ (message (Graph.rethrown Examples.unauthorized) = rate_limit_text
      \/ message (Graph.rethrown Examples.unauthorized) = auth_text
      \/ exists m,
           message (Graph.rethrown Examples.unauthorized)
           = String.append "Agent failed: " m).
Proof.
  apply (callAgent_throws_plain_error
           Scenarios.unauthorized_model Examples.echo_tools
           Scenarios.new_thread "hi" "Recursion limit reached" 17 1
           (Graph.rethrown Examples.unauthorized)).
  reflexivity.
Defined.
